(** * Security bot: spam, content, raid and escalation detectors

    A shallow embedding of the detectors of the security bot
    (spamDetection.js, security.js, raidProtection.js, contentFilter.js and
    utils.js) together with the properties of its specification.

    Conventions of the embedding:
    - a JavaScript string is the list of its UTF-16 code units ([jsstring]);
    - integer-valued JavaScript numbers are [Z]; the only fractional numbers
      of the detectors come from the similarity ratio and are exact
      rationals ([Q]);
    - [Date.now()] is an explicit argument [now] (milliseconds);
    - a discord.js [Collection] (a [Map]) is a [gmap];
    - an object mutated in place is threaded through as explicit state. *)

From Stdlib Require Import ZArith NArith QArith Qminmax Lia Lqa Bool String Ascii.
From stdpp Require Import base option list gmap strings pretty.

#[local] Open Scope Z_scope.

(** ** JavaScript strings and arrays *)

Abbreviation jsstring := (list N).

(** Code units of an ASCII literal. *)
Definition str (s : string) : jsstring :=
  List.map N_of_ascii (list_ascii_of_string s).

(** [arr[i] = v]: overwrites inside the array and extends it when
    [i = arr.length] (the only out-of-range write the code performs). *)
Definition js_set {A} (arr : list A) (i : nat) (v : A) : list A :=
  if decide (i < length arr)%nat then <[i := v]> arr else arr ++ [v].

(** [x > y] on rationals. *)
Definition Qgtb (x y : Q) : bool := negb (Qle_bool x y).

(** ** Regular expressions of the detectors

    [String.prototype.match] with a global regular expression returns the
    matches from left to right (or [null], here the empty list); each search
    resumes where the previous match ended, one code unit further after an
    empty match.  [m prev s] is the length of the match of the expression at
    the position whose preceding code unit is [prev] and whose remaining input
    is [s], if there is one. *)

Fixpoint match_g_from (m : option N → jsstring → option nat) (fuel : nat)
    (prev : option N) (s : jsstring) : list jsstring :=
  match fuel with
  | O => []
  | S fuel =>
      match m prev s with
      | Some n =>
          let k := (n `max` 1)%nat in
          take n s ::
            (if decide (length s < k)%nat then []
             else match_g_from m fuel (last (take k s)) (drop k s))
      | None =>
          match s with
          | [] => []
          | c :: s' => match_g_from m fuel (Some c) s'
          end
      end
  end.

Definition match_g (m : option N → jsstring → option nat) (s : jsstring)
  : list jsstring :=
  match_g_from m (S (length s)) None s.

(** Length of the longest prefix whose code units satisfy [P]. *)
Fixpoint span_len (P : N → bool) (s : jsstring) : nat :=
  match s with
  | c :: s' => if P c then S (span_len P s') else O
  | [] => O
  end.

Definition in_range (lo hi c : N) : bool := (lo <=? c)%N && (c <=? hi)%N.

(** Line terminators, which [.] does not match. *)
Definition is_line_terminator (c : N) : bool :=
  (c =? 10)%N || (c =? 13)%N || (c =? 0x2028)%N || (c =? 0x2029)%N.

(** Code points of a string, as a regular expression with the [u] flag reads
    them: a high surrogate followed by a low surrogate is one code point. *)
Fixpoint codePoints (s : jsstring) : list N :=
  match s with
  | [] => []
  | hi :: s' =>
      match s' with
      | lo :: s'' =>
          if in_range 0xD800 0xDBFF hi && in_range 0xDC00 0xDFFF lo
          then (0x10000 + (hi - 0xD800) * 0x400 + (lo - 0xDC00))%N :: codePoints s''
          else hi :: codePoints s'
      | [] => [hi]
      end
  end.

(** ** String methods

    Case mapping covers Basic Latin and Latin-1 Supplement, the code units of
    the word lists; other code units are left as they are. *)

Definition toLowerCase_unit (c : N) : N :=
  if in_range 65 90 c then (c + 32)%N
  else if in_range 0xC0 0xDE c && negb (c =? 0xD7)%N then (c + 32)%N
  else c.

Definition toLowerCase (s : jsstring) : jsstring := toLowerCase_unit <$> s.

(** [Canonicalize] of a case-insensitive expression without the [u] flag: the
    upper-case code unit, unless upper-casing yields several code units (sharp
    s) or leaves the non-ASCII range. *)
Definition canonicalize (c : N) : N :=
  if in_range 97 122 c then (c - 32)%N
  else if in_range 0xE0 0xFE c && negb (c =? 0xF7)%N then (c - 32)%N
  else if (c =? 0xFF)%N then 0x178%N
  else if (c =? 0xB5)%N then 0x39C%N
  else c.

(** White space and line terminators, which [trim] removes. *)
Definition is_white_space (c : N) : bool :=
  (c =? 9)%N || (c =? 11)%N || (c =? 12)%N || (c =? 32)%N || (c =? 160)%N
  || (c =? 0x1680)%N || in_range 0x2000 0x200A c || (c =? 0x202F)%N
  || (c =? 0x205F)%N || (c =? 0x3000)%N || (c =? 0xFEFF)%N
  || is_line_terminator c.

Definition trim (s : jsstring) : jsstring :=
  let s := drop (span_len is_white_space s) s in
  rev (drop (span_len is_white_space (rev s)) (rev s)).

(** [s.includes(lit)] *)
Fixpoint includes (lit s : jsstring) : bool :=
  bool_decide (take (length lit) s = lit)
  || match s with
     | [] => false
     | _ :: s' => includes lit s'
     end.

(** ** The fragment of regular expressions the content filter compiles

    [new RegExp(source, 'gi')] for a source made of word-boundary assertions,
    escaped syntax characters, plain characters and classes of plain
    characters.  [None] stands for a source outside this fragment, which
    includes the sources the constructor rejects. *)

Inductive atom :=
| Lit (c : N)
| Class (members : list N)
| WordBoundary.

(** The characters escaped by [word.replace(/[.*+?^${}()|[\]\\]/g, '\\$&')]. *)
Definition is_syntax_char (c : N) : bool :=
  bool_decide (c ∈ str ".*+?^${}()|[]\").

(** The members of a class up to its closing bracket, and the rest of the
    source. *)
Fixpoint class_body (p : jsstring) : option (list N * jsstring) :=
  match p with
  | [] => None
  | c :: p' =>
      if (c =? 93)%N then Some ([], p')
      else if (c =? 92)%N || (c =? 45)%N || (c =? 94)%N then None
      else prod_map (cons c) id <$> class_body p'
  end.

Fixpoint parse_regex_from (fuel : nat) (p : jsstring) : option (list atom) :=
  match fuel with
  | O => None
  | S fuel =>
      match p with
      | [] => Some []
      | c :: p' =>
          if (c =? 92)%N then
            match p' with
            | e :: p'' =>
                if (e =? 98)%N then cons WordBoundary <$> parse_regex_from fuel p''
                else if is_syntax_char e then cons (Lit e) <$> parse_regex_from fuel p''
                else None
            | [] => None
            end
          else if (c =? 91)%N then
            match class_body p' with
            | Some (members, rest) => cons (Class members) <$> parse_regex_from fuel rest
            | None => None
            end
          else if (c =? 93)%N then cons (Lit c) <$> parse_regex_from fuel p'
          else if is_syntax_char c then None
          else cons (Lit c) <$> parse_regex_from fuel p'
      end
  end.

Definition parse_regex (source : jsstring) : option (list atom) :=
  parse_regex_from (S (length source)) source.

Definition is_word_char (c : N) : bool :=
  in_range 97 122 c || in_range 65 90 c || in_range 48 57 c || (c =? 95)%N.

(** [\b] between the code unit before the position and the one at it. *)
Definition at_boundary (prev : option N) (s : jsstring) : bool :=
  xorb (from_option is_word_char false prev) (from_option is_word_char false (head s)).

(** Length of the match of the atoms at a position, ignoring case. *)
Fixpoint match_atoms (r : list atom) (prev : option N) (s : jsstring) : option nat :=
  match r with
  | [] => Some O
  | WordBoundary :: r' => if at_boundary prev s then match_atoms r' prev s else None
  | Lit c :: r' =>
      match s with
      | x :: s' =>
          if (canonicalize x =? canonicalize c)%N
          then S <$> match_atoms r' (Some x) s' else None
      | [] => None
      end
  | Class members :: r' =>
      match s with
      | x :: s' =>
          if existsb (λ c, canonicalize x =? canonicalize c)%N members
          then S <$> match_atoms r' (Some x) s' else None
      | [] => None
      end
  end.

(** [text.match(pattern)] for a compiled pattern. *)
Definition match_pattern (pattern : list atom) (text : jsstring) : list jsstring :=
  match_g (match_atoms pattern) text.

(** ** utils.js *)

Module Utils.

Abbreviation Matrix := (list (list Z)).

  (** [matrix[i][j]]; every read of the code hits a cell written before. *)
Definition mget (m : Matrix) (i j : nat) : Z :=
    default 0 (m !! i ≫= (.!! j)).

  (** [matrix[i][j] = v] *)
Definition mset (m : Matrix) (i j : nat) (v : Z) : Matrix :=
    alter (λ row, js_set row j v) i m.

  (** [str.charAt(i) === str'.charAt(j)]: outside the string [charAt] is the
      empty string, here [None]. *)
Definition charAt_eqb (s : jsstring) (i : nat) (s' : jsstring) (j : nat) : bool :=
    bool_decide (s !! i = s' !! j).

  (** Body of the inner loop of [levenshteinDistance]. *)
Definition lev_cell (str1 str2 : jsstring) (m : Matrix) (i j : nat) : Z :=
    if charAt_eqb str2 (i - 1) str1 (j - 1)
    then mget m (i - 1) (j - 1)
    else Z.min (mget m (i - 1) (j - 1) + 1)
               (Z.min (mget m i (j - 1) + 1) (mget m (i - 1) j + 1)).

Definition lev_init_rows (str2 : jsstring) : Matrix :=
    foldl (λ m i, js_set m i [Z.of_nat i]) [] (seq 0 (S (length str2))).

Definition lev_init_row0 (str1 : jsstring) (m : Matrix) : Matrix :=
    foldl (λ m j, mset m 0 j (Z.of_nat j)) m (seq 0 (S (length str1))).

Definition lev_inner (str1 str2 : jsstring) (m : Matrix) (i : nat) : Matrix :=
    foldl (λ m j, mset m i j (lev_cell str1 str2 m i j)) m (seq 1 (length str1)).

Definition lev_fill (str1 str2 : jsstring) (m : Matrix) : Matrix :=
    foldl (lev_inner str1 str2) m (seq 1 (length str2)).

Definition levenshteinDistance (str1 str2 : jsstring) : Z :=
    let matrix := lev_init_rows str2 in
    let matrix := lev_init_row0 str1 matrix in
    let matrix := lev_fill str1 str2 matrix in
    mget matrix (length str2) (length str1).

Definition calculateSimilarity (str1 str2 : jsstring) : Q :=
    let longer := if decide (length str2 < length str1)%nat then str1 else str2 in
    let shorter := if decide (length str2 < length str1)%nat then str2 else str1 in
    if decide (length longer = 0%nat) then 1%Q
    else
      let distance := levenshteinDistance longer shorter in
      (inject_Z (Z.of_nat (length longer) - distance)
       / inject_Z (Z.of_nat (length longer)))%Q.

  (** [ToInt32] *)
Definition to_int32 (z : Z) : Z := (z + 2 ^ 31) mod 2 ^ 32 - 2 ^ 31.

Definition hashString (s : jsstring) : jsstring :=
    if decide (length s = 0%nat) then str "0"
    else
      let hash :=
        foldl (λ hash char,
                 let hash := to_int32 (hash * 2 ^ 5) - hash + Z.of_N char in
                 to_int32 hash)
              0 s in
      str (pretty (Z.abs hash)) .

End Utils.

(** ** Moderation actions

    The action strings ['none'], ['warn'], ['timeout'], ['kick'], ['ban'] and
    ['delete'] returned by the detectors. *)

Inductive Action := ActNone | ActWarn | ActTimeout | ActKick | ActBan | ActDelete.

(** ** spamDetection.js *)

Module SpamDetection.

  (** [config.spam] *)
Record SpamConfig := {
    maxDuplicateMessages : Z;
    maxMessagesPerMinute : Z
  }.

  (** An entry of a user's message history. *)
Record Msg := {
    content : jsstring;
    timestamp : Z;
    channelId : jsstring
  }.

  (** A user's violation data; [lastReason] and [lastSeverity] are absent
      from the default object. *)
Record Violations := {
    count : Z;
    lastViolation : Z;
    lastReason : option jsstring;
    lastSeverity : option Q
  }.

  (** [this.userMessages] and [this.userViolations]; [suspiciousPatterns] is
      only ever cleared. *)
Record State := {
    userMessages : gmap jsstring (list Msg);
    userViolations : gmap jsstring Violations
  }.

  (** The entries of [reasons]; the texts carry the numbers shown here. *)
Inductive Reason :=
  | DuplicateMessage (duplicateCount : Z)
  | MessageFlooding (recentCount : Z)
  | BurstMessaging (burstCount : Z)
  | RepeatedChars
  | CapsLock
  | ExcessiveEmojis (matches : Z)
  | ZalgoText
  | InvisibleChars
  | SimilarMessages (maxSimilarity : Q).

  (** Result of one check, over the numbers [num] it produces. *)
Record Check (num : Type) := {
    isSpam : bool;
    confidence : num;
    reasons : list Reason;
    severity : num
  }.
Arguments isSpam {num}.
Arguments confidence {num}.
Arguments reasons {num}.
Arguments severity {num}.

Record Analysis := {
    a_isSpam : bool;
    a_confidence : Q;
    a_reasons : list Reason;
    a_action : Action;
    a_severity : Q
  }.

Definition no_spam {num} (zero : num) : Check num :=
    {| isSpam := false; confidence := zero; reasons := []; severity := zero |}.

  (** *** The patterns of the constructor *)

  (** [/(.)\1{4,}/g] *)
Definition repeatedChars (prev : option N) (s : jsstring) : option nat :=
    match s with
    | c :: s' =>
        let n := span_len (N.eqb c) s' in
        if negb (is_line_terminator c) && (4 <=? n)%nat then Some (S n) else None
    | [] => None
    end.

  (** [/[A-Z]{10,}/g] *)
Definition capsLock (prev : option N) (s : jsstring) : option nat :=
    let n := span_len (in_range 65 90) s in
    if (10 <=? n)%nat then Some n else None.

  (** A one-character class. *)
Definition one_of (P : N → bool) (prev : option N) (s : jsstring) : option nat :=
    match s with
    | c :: _ => if P c then Some 1%nat else None
    | [] => None
    end.

  (** The class of [excessiveEmojis], over code points ([u] flag). *)
Definition is_emoji (cp : N) : bool :=
    in_range 0x1F600 0x1F64F cp || in_range 0x1F300 0x1F5FF cp
    || in_range 0x1F680 0x1F6FF cp || in_range 0x1F1E0 0x1F1FF cp.

  (** The class of [zalgoText]. *)
Definition is_zalgo (c : N) : bool :=
    in_range 0x0300 0x036F c || in_range 0x1AB0 0x1AFF c
    || in_range 0x1DC0 0x1DFF c || in_range 0x20D0 0x20FF c.

  (** The class of [invisibleChars]. *)
Definition is_invisible (c : N) : bool :=
    in_range 0x200B 0x200D c || (c =? 0xFEFF)%N.

  (** [content.match(this.patterns.excessiveEmojis)]: with the [u] flag every
      code point of the class is one match. *)
Definition match_emojis (s : jsstring) : list N :=
    base.filter (λ cp, is_emoji cp = true) (codePoints s).

  (** *** The checks *)

Definition checkDuplicateMessages (cfg : SpamConfig) (messages : list Msg)
      (currentContent : jsstring) : Check Z :=
    let duplicateCount :=
      Z.of_nat (length (base.filter (λ msg, content msg = currentContent) messages)) in
    if decide (maxDuplicateMessages cfg < duplicateCount) then
      {| isSpam := true;
         confidence := Z.min (duplicateCount * 20) 80;
         reasons := [DuplicateMessage duplicateCount];
         severity := Z.min (duplicateCount * 15) 60 |}
    else no_spam 0.

Definition checkMessageFrequency (cfg : SpamConfig) (messages : list Msg)
      (now : Z) : Check Z :=
    let oneMinuteAgo := now - 60000 in
    let recentCount :=
      Z.of_nat (length (base.filter (λ msg, oneMinuteAgo < timestamp msg) messages)) in
    let result :=
      if decide (maxMessagesPerMinute cfg < recentCount) then
        {| isSpam := true;
           confidence := Z.min ((recentCount - maxMessagesPerMinute cfg) * 10) 70;
           reasons := [MessageFlooding recentCount];
           severity := Z.min ((recentCount - maxMessagesPerMinute cfg) * 8) 50 |}
      else no_spam 0 in
    let tenSecondsAgo := now - 10000 in
    let burstCount :=
      Z.of_nat (length (base.filter (λ msg, tenSecondsAgo < timestamp msg) messages)) in
    if decide (5 ≤ burstCount) then
      {| isSpam := true;
         confidence := confidence result + Z.min (burstCount * 8) 40;
         reasons := reasons result ++ [BurstMessaging burstCount];
         severity := severity result + Z.min (burstCount * 6) 30 |}
    else result.

  (** [result.isSpam = true; result.confidence += c; result.reasons.push(why);
      result.severity += s] *)
Definition flag (result : Check Z) (c : Z) (why : Reason) (s : Z) : Check Z :=
    {| isSpam := true;
       confidence := confidence result + c;
       reasons := reasons result ++ [why];
       severity := severity result + s |}.

Definition total_length (matches : list jsstring) : Z :=
    Z.of_nat (length (concat matches)).

Definition checkContentPatterns (content : jsstring) : Check Z :=
    let result := no_spam 0 in
    let repeatedMatches := match_g repeatedChars content in
    let result :=
      if decide (0 < length repeatedMatches)%nat
      then flag result 25 RepeatedChars 20 else result in
    let capsMatches := match_g capsLock content in
    let result :=
      if decide (capsMatches ≠ [] ∧ (20 < length content)%nat) then
        (* capsRatio > 0.7, for the ratio of two integers *)
        if decide (7 * Z.of_nat (length content) < 10 * total_length capsMatches)
        then flag result 20 CapsLock 15 else result
      else result in
    let emojiMatches := match_emojis content in
    let result :=
      if decide (10 < length emojiMatches)%nat
      then flag result 30 (ExcessiveEmojis (Z.of_nat (length emojiMatches))) 25
      else result in
    let zalgoMatches := match_g (one_of is_zalgo) content in
    let result :=
      if decide (20 < length zalgoMatches)%nat
      then flag result 40 ZalgoText 35 else result in
    let invisibleMatches := match_g (one_of is_invisible) content in
    let result :=
      if decide (5 < length invisibleMatches)%nat
      then flag result 35 InvisibleChars 30 else result in
    result.

  (** The loop of [checkMessageSimilarity] over the last five messages,
      carrying [(maxSimilarity, similarCount)]. *)
Definition similarity_step (currentContent : jsstring) (acc : Q * Z) (msg : Msg)
      : Q * Z :=
    if decide (content msg = currentContent) then acc
    else
      let similarity := Utils.calculateSimilarity (content msg) currentContent in
      (Qmax (fst acc) similarity,
       if Qgtb similarity (8 # 10) then snd acc + 1 else snd acc).

Definition checkMessageSimilarity (messages : list Msg)
      (currentContent : jsstring) : Check Q :=
    if decide (length messages < 2)%nat then no_spam 0%Q
    else
      let recentMessages := drop (length messages - 5) messages in
      let '(maxSimilarity, similarCount) :=
        foldl (similarity_step currentContent) (0%Q, 0) recentMessages in
      if Qgtb maxSimilarity (85 # 100) || bool_decide (2 ≤ similarCount) then
        {| isSpam := true;
           confidence := Qmin (maxSimilarity * 60) 50;
           reasons := [SimilarMessages maxSimilarity];
           severity := Qmin (maxSimilarity * 40) 35 |}
      else no_spam 0%Q.

  (** *** Violations and the escalation decision *)

Definition getUserViolations (st : State) (userId : jsstring) : Violations :=
    default {| count := 0; lastViolation := 0; lastReason := None; lastSeverity := None |}
            (userViolations st !! userId).

Definition determineAction (st : State) (userId : jsstring) (severity : Q) : Action :=
    let violations := getUserViolations st userId in
    if Qle_bool 80 severity || bool_decide (5 ≤ count violations) then ActBan
    else if Qle_bool 60 severity || bool_decide (3 ≤ count violations) then ActKick
    else if Qle_bool 40 severity || bool_decide (2 ≤ count violations) then ActTimeout
    else if Qle_bool 20 severity || bool_decide (1 ≤ count violations) then ActWarn
    else ActNone.

Definition addViolation (st : State) (userId reason : jsstring) (severity : Q)
      (now : Z) : State * Violations :=
    let violations := getUserViolations st userId in
    let violations :=
      {| count := count violations + 1;
         lastViolation := now;
         lastReason := Some reason;
         lastSeverity := Some severity |} in
    ({| userMessages := userMessages st;
        userViolations := <[userId := violations]> (userViolations st) |},
     violations).

  (** *** [analyzeMessage] *)

Record Message := {
    author_id : jsstring;
    msg_content : jsstring;
    channel_id : option jsstring
  }.

  (** [if (r.isSpam) { analysis.isSpam = true; analysis.confidence += ...;
      analysis.reasons.push(...r.reasons); analysis.severity += ... }] *)
Definition absorb (analysis : Analysis) (r : Check Q) : Analysis :=
    if isSpam r then
      {| a_isSpam := true;
         a_confidence := (a_confidence analysis + confidence r)%Q;
         a_reasons := a_reasons analysis ++ reasons r;
         a_action := a_action analysis;
         a_severity := (a_severity analysis + severity r)%Q |}
    else analysis.

Definition as_number (r : Check Z) : Check Q :=
    {| isSpam := isSpam r;
       confidence := inject_Z (confidence r);
       reasons := reasons r;
       severity := inject_Z (severity r) |}.

  (** The pruned history with the current message appended. *)
Definition recent_messages (st : State) (message : Message) (now : Z) : list Msg :=
    let userHistory := default [] (userMessages st !! author_id message) in
    let fiveMinutesAgo := now - 5 * 60 * 1000 in
    base.filter (λ msg, fiveMinutesAgo < timestamp msg) userHistory
    ++ [{| content := msg_content message;
           timestamp := now;
           channelId := match channel_id message with
                        | Some (c :: id) => c :: id
                        | _ => str "unknown"
                        end |}].

Definition analyzeMessage (cfg : SpamConfig) (st : State) (message : Message)
      (now : Z) : State * Analysis :=
    let userId := author_id message in
    let content := msg_content message in
    let analysis :=
      {| a_isSpam := false; a_confidence := 0; a_reasons := [];
         a_action := ActNone; a_severity := 0 |} in
    let recentMessages := recent_messages st message now in
    let st :=
      {| userMessages := <[userId := recentMessages]> (userMessages st);
         userViolations := userViolations st |} in
    let analysis :=
      absorb analysis (as_number (checkDuplicateMessages cfg recentMessages content)) in
    let analysis :=
      absorb analysis (as_number (checkMessageFrequency cfg recentMessages now)) in
    let analysis := absorb analysis (as_number (checkContentPatterns content)) in
    let analysis := absorb analysis (checkMessageSimilarity recentMessages content) in
    (st,
     {| a_isSpam := a_isSpam analysis;
        a_confidence := Qmin (a_confidence analysis) 100;
        a_reasons := a_reasons analysis;
        a_action := determineAction st userId (a_severity analysis);
        a_severity := a_severity analysis |}).

  (** *** [cleanup] *)

Definition cleanup (st : State) (now : Z) : State :=
    let oneHour := 60 * 60 * 1000 in
    let fiveMinutes := 5 * 60 * 1000 in
    {| userMessages :=
         omap (λ messages,
                 let recentMessages :=
                   base.filter (λ msg, now - timestamp msg < fiveMinutes) messages in
                 if decide (length recentMessages = 0%nat) then None
                 else Some recentMessages)
              (userMessages st);
       userViolations :=
         base.filter (λ entry, ¬ (oneHour < now - lastViolation (snd entry)))
                     (userViolations st) |}.

End SpamDetection.

(** ** security.js *)

Module SecurityModule.

  (** [config.raidProtection] *)
Record RaidConfig := { joinThreshold : Z }.

  (** A Discord user; [id] is the number its snowflake string denotes, a
      missing avatar is [None]. *)
Record User := {
    id : Z;
    username : jsstring;
    createdTimestamp : Z;
    avatar : option jsstring;
    discriminator : jsstring
  }.

Inductive RiskLevel := Low | Medium | High | Critical.

Inductive Flag :=
  | VeryNewAccount | NewAccount | RecentAccount
  | SuspiciousUsername | DefaultAvatar | IdTimestampMismatch.

Inductive Recommendation :=
  | MonitorClosely | WatchBehavior
  | EnableVerification | RestrictNewMembers | AccountAgeRequirements
  | ConsiderLockdown.

Record UserAnalysis := {
    riskLevel : RiskLevel;
    riskScore : Z;
    flags : list Flag;
    u_recommendations : list Recommendation
  }.

  (** An entry of [recentJoins]. *)
Record Join := {
    userId : Z;
    timestamp : Z;
    j_riskScore : Z;
    accountAge : Z
  }.

Record RaidData := {
    recentJoins : list Join;
    suspiciousJoins : Z;
    lastRaidAlert : Z
  }.

Record Tracked := {
    t_accountAgeMs : Z;
    t_riskScore : Z;
    t_riskLevel : RiskLevel;
    analyzedAt : Z
  }.

  (** [this.raidDetection] and [this.accountAgeTracker]. *)
Record State := {
    raidDetection : gmap jsstring RaidData;
    accountAgeTracker : gmap Z Tracked
  }.

Record RaidAnalysis := {
    isRaid : bool;
    confidence : Z;
    joinCount : Z;
    suspiciousCount : Z;
    averageRisk : Q;
    recommendations : list Recommendation
  }.

  (** *** [usernamePatterns] *)

Definition is_letter (c : N) : bool := in_range 65 90 c || in_range 97 122 c.
Definition is_digit (c : N) : bool := in_range 48 57 c.
Definition ascii_upper (c : N) : N := if in_range 97 122 c then (c - 32)%N else c.

  (** [^[a-z]{lo,hi}\d{d,}$] with the [i] flag; [hi = None] is unbounded. *)
Definition letters_digits (lo : nat) (hi : option nat) (d : nat) (s : jsstring) : bool :=
    let l := span_len is_letter s in
    let n := span_len is_digit (drop l s) in
    (lo <=? l)%nat && from_option (λ hi, l <=? hi)%nat true hi
    && (d <=? n)%nat && bool_decide (drop (l + n) s = []).

  (** [/^user\d+$/i] *)
Definition user_digits (s : jsstring) : bool :=
    bool_decide (ascii_upper <$> take 4 s = str "USER")
    && (1 <=? span_len is_digit (drop 4 s))%nat
    && bool_decide (drop (4 + span_len is_digit (drop 4 s)) s = []).

  (** A literal searched anywhere, with the [i] flag. *)
Fixpoint includes_ci (lit s : jsstring) : bool :=
    bool_decide (ascii_upper <$> take (length lit) s = ascii_upper <$> lit)
    || match s with
       | [] => false
       | _ :: s' => includes_ci lit s'
       end.

Definition usernamePatterns : list (jsstring → bool) :=
    [ letters_digits 1 None 4;
      user_digits;
      letters_digits 1 (Some 3%nat) 8;
      includes_ci (str "discord.gg");
      includes_ci (str "nitro");
      includes_ci (str "free") ].

  (** *** [analyzeUser] *)

Definition bump (a : UserAnalysis) (points : Z) (fl : list Flag)
      (rec : list Recommendation) : UserAnalysis :=
    {| riskLevel := riskLevel a;
       riskScore := riskScore a + points;
       flags := flags a ++ fl;
       u_recommendations := u_recommendations a ++ rec |}.

Definition level_of (score : Z) : RiskLevel :=
    if decide (70 ≤ score) then Critical
    else if decide (50 ≤ score) then High
    else if decide (25 ≤ score) then Medium
    else Low.

Definition analyzeUser (st : State) (user : User) (now : Z) : State * UserAnalysis :=
    let analysis :=
      {| riskLevel := Low; riskScore := 0; flags := []; u_recommendations := [] |} in
    let accountAge := now - createdTimestamp user in
    (* accountAgeHours < h, for accountAgeHours = accountAge / 3600000 *)
    let analysis :=
      if decide (accountAge < 1 * 3600000) then
        bump analysis 40 [VeryNewAccount] [MonitorClosely]
      else if decide (accountAge < 24 * 3600000) then
        bump analysis 25 [NewAccount] [WatchBehavior]
      else if decide (accountAge < 168 * 3600000) then
        bump analysis 10 [RecentAccount] []
      else analysis in
    let analysis :=
      if existsb (λ pattern, pattern (username user)) usernamePatterns
      then bump analysis 15 [SuspiciousUsername] [] else analysis in
    let analysis :=
      match avatar user with
      | Some (_ :: _) => analysis
      | _ => bump analysis 10 [DefaultAvatar] []
      end in
    let analysis :=
      if decide (discriminator user = str "0") then bump analysis (-5) [] []
      else analysis in
    let timestamp := Z.shiftr (id user) 22 + 1420070400000 in
    let timeDiff := Z.abs (timestamp - createdTimestamp user) in
    let analysis :=
      if decide (60000 < timeDiff) then bump analysis 20 [IdTimestampMismatch] []
      else analysis in
    let analysis :=
      {| riskLevel := level_of (riskScore analysis);
         riskScore := riskScore analysis;
         flags := flags analysis;
         u_recommendations := u_recommendations analysis |} in
    ({| raidDetection := raidDetection st;
        accountAgeTracker :=
          <[id user := {| t_accountAgeMs := accountAge;
                          t_riskScore := riskScore analysis;
                          t_riskLevel := riskLevel analysis;
                          analyzedAt := now |}]> (accountAgeTracker st) |},
     analysis).

  (** *** [detectRaid] *)

Definition count_where (P : Join → Prop) `{∀ j, Decision (P j)} (joins : list Join) : Z :=
    Z.of_nat (length (base.filter P joins)).

Definition risk_sum (joins : list Join) : Z :=
    foldl (λ sum join, sum + j_riskScore join) 0 joins.

  (** The pruned join list with the current join appended. *)
Definition window (data : RaidData) (join : Join) (now : Z) : list Join :=
    let tenMinutesAgo := now - 10 * 60 * 1000 in
    base.filter (λ join, tenMinutesAgo < timestamp join) (recentJoins data) ++ [join].

Definition add_confidence (a : RaidAnalysis) (points : Z)
      (rec : list Recommendation) : RaidAnalysis :=
    {| isRaid := isRaid a;
       confidence := confidence a + points;
       joinCount := joinCount a;
       suspiciousCount := suspiciousCount a;
       averageRisk := averageRisk a;
       recommendations := recommendations a ++ rec |}.

  (** The evaluation of the raid indicators over the join window.  The
      products [joinCount * 0.6] and [joinCount * 0.7] are compared with an
      integer count, which is the comparison of the integers scaled by ten. *)
Definition evaluate (cfg : RaidConfig) (joins : list Join) : RaidAnalysis :=
    let analysis :=
      {| isRaid := false;
         confidence := 0;
         joinCount := Z.of_nat (length joins);
         suspiciousCount := count_where (λ join, 30 < j_riskScore join) joins;
         averageRisk :=
           (inject_Z (risk_sum joins) / inject_Z (Z.of_nat (length joins)))%Q;
         recommendations := [] |} in
    let analysis :=
      if decide (joinThreshold cfg ≤ joinCount analysis) then
        let analysis := add_confidence analysis 30 [] in
        let analysis :=
          if decide (6 * joinCount analysis ≤ 10 * suspiciousCount analysis)
          then add_confidence analysis 40 [EnableVerification] else analysis in
        let analysis :=
          if Qgtb (averageRisk analysis) 40
          then add_confidence analysis 30 [RestrictNewMembers] else analysis in
        let newAccountCount := count_where (λ join, accountAge join < 86400000) joins in
        if decide (7 * joinCount analysis ≤ 10 * newAccountCount)
        then add_confidence analysis 35 [AccountAgeRequirements] else analysis
      else analysis in
    if decide (60 ≤ confidence analysis) then
      {| isRaid := true;
         confidence := confidence analysis;
         joinCount := joinCount analysis;
         suspiciousCount := suspiciousCount analysis;
         averageRisk := averageRisk analysis;
         recommendations := recommendations analysis ++ [ConsiderLockdown] |}
    else analysis.

Definition detectRaid (cfg : RaidConfig) (st : State) (guildId : jsstring)
      (user : User) (now : Z) : State * RaidAnalysis :=
    let raidData :=
      default {| recentJoins := []; suspiciousJoins := 0; lastRaidAlert := 0 |}
              (raidDetection st !! guildId) in
    let '(st, userAnalysis) := analyzeUser st user now in
    let joins :=
      window raidData
             {| userId := id user;
                timestamp := now;
                j_riskScore := riskScore userAnalysis;
                accountAge := now - createdTimestamp user |}
             now in
    let analysis := evaluate cfg joins in
    let lastRaidAlert :=
      if isRaid analysis && bool_decide (300000 < now - lastRaidAlert raidData)
      then now else lastRaidAlert raidData in
    ({| raidDetection :=
          <[guildId := {| recentJoins := joins;
                          suspiciousJoins := suspiciousJoins raidData;
                          lastRaidAlert := lastRaidAlert |}]> (raidDetection st);
        accountAgeTracker := accountAgeTracker st |},
     analysis).

End SecurityModule.

(** ** raidProtection.js *)

Module RaidProtection.

  (** [a || b] on numbers: [a] unless it is missing or zero. *)
Definition or_default (a : option Z) (b : Z) : Z :=
    match a with
    | Some v => if decide (v = 0) then b else v
    | None => b
    end.

  (** [this.config], after the defaults of the constructor. *)
Record Options := {
    o_joinThreshold : Z;
    o_timeWindow : Z;
    accountAgeThreshold : Z
  }.

  (** [guildConfig.raidProtection.accountAge] *)
Record AccountAgeConfig := {
    aa_enabled : bool;
    minimumAge : option Z;
    aa_action : option Action
  }.

  (** [guildConfig.raidProtection] *)
Record GuildConfig := {
    enabled : bool;
    joinThreshold : option Z;
    timeWindow : option Z;
    accountAgeCfg : option AccountAgeConfig
  }.

Record User := {
    id : jsstring;
    username : jsstring;
    discriminator : jsstring;
    createdAt : Z;
    avatar : option jsstring
  }.

  (** An entry of [guildData.joins]. *)
Record Join := {
    userId : jsstring;
    j_username : jsstring;
    j_discriminator : jsstring;
    accountCreated : Z;
    joinedAt : Z;
    j_avatar : option jsstring;
    suspicious : bool
  }.

Record GuildData := {
    joins : list Join;
    lastRaidCheck : Z;
    raidActive : bool;
    raidStarted : option Z
  }.

  (** [this.joinTracker]; the collections that only record what the
      enforcement steps did are left out. *)
Abbreviation State := (gmap jsstring GuildData).

Inductive JoinReason :=
  | NewAccountReason | RandomUsername | ExcessiveNumbers | VeryShortUsername
  | VeryLongUsername | BotLikeUsername | DefaultAvatarReason
  | SimilarToRecent (n : Z) | RapidJoinPattern.

Record UsernameAnalysis := {
    un_score : Z;
    un_reasons : list JoinReason;
    un_suspicious : bool
  }.

Record JoinAnalysis := {
    ja_riskScore : Z;
    ja_suspicious : bool;
    ja_reasons : list JoinReason;
    ja_action : Action
  }.

Inductive Indicator :=
  | JoinRate (n : Z) | SuspiciousAccounts (n : Z) | SimilarUsernames | NewAccounts (n : Z).

Record RaidCheck := {
    isRaid : bool;
    raidScore : Z;
    indicators : list Indicator;
    rc_recentJoins : Z;
    rc_suspiciousJoins : Z;
    rc_timeWindow : Z
  }.

  (** The object [monitorJoin] returns; [raidDetected] and the fields after
      it are absent when raid protection is disabled. *)
Record Monitored := {
    action : Action;
    m_suspicious : option bool;
    raidDetected : option bool;
    m_riskScore : option Z
  }.

  (** *** [analyzeUsername] *)

Definition is_lower (c : N) : bool := in_range 97 122 c.

  (** [/^[a-z]+\d{4,}$/] *)
Definition random_pattern (s : jsstring) : bool :=
    let l := span_len is_lower s in
    let n := span_len SecurityModule.is_digit (drop l s) in
    (1 <=? l)%nat && (4 <=? n)%nat && bool_decide (drop (l + n) s = []).

  (** [/word\d+/i] *)
Fixpoint word_digit (word s : jsstring) : bool :=
    (bool_decide (SecurityModule.ascii_upper <$> take (length word) s
                  = SecurityModule.ascii_upper <$> word)
     && (1 <=? span_len SecurityModule.is_digit (drop (length word) s))%nat)
    || match s with
       | [] => false
       | _ :: s' => word_digit word s'
       end.

Definition botPatterns : list (jsstring → bool) :=
    [ word_digit (str "user"); word_digit (str "member"); word_digit (str "guest");
      word_digit (str "temp"); word_digit (str "test") ].

Definition analyzeUsername (username : jsstring) : UsernameAnalysis :=
    let r := {| un_score := 0; un_reasons := []; un_suspicious := false |} in
    let r :=
      if random_pattern username then
        {| un_score := un_score r + 20; un_reasons := un_reasons r ++ [RandomUsername];
           un_suspicious := true |}
      else r in
    let numberCount :=
      Z.of_nat (length (base.filter (λ c, SecurityModule.is_digit c = true) username)) in
    let r :=
      (* numberCount > username.length * 0.5 *)
      if decide (Z.of_nat (length username) < 2 * numberCount) then
        {| un_score := un_score r + 15; un_reasons := un_reasons r ++ [ExcessiveNumbers];
           un_suspicious := true |}
      else r in
    let r :=
      if decide (length username ≤ 3)%nat then
        {| un_score := un_score r + 10; un_reasons := un_reasons r ++ [VeryShortUsername];
           un_suspicious := un_suspicious r |}
      else if decide (20 ≤ length username)%nat then
        {| un_score := un_score r + 10; un_reasons := un_reasons r ++ [VeryLongUsername];
           un_suspicious := un_suspicious r |}
      else r in
    if existsb (λ pattern, pattern username) botPatterns then
      {| un_score := un_score r + 25; un_reasons := un_reasons r ++ [BotLikeUsername];
         un_suspicious := true |}
    else r.

  (** *** [findSimilarUsernames] *)

  (** [calculateStringSimilarity] repeats the loops of
      [utils.levenshteinDistance] on its own matrix. *)
Definition calculateStringSimilarity (str1 str2 : jsstring) : Q :=
    let distance := Utils.levenshteinDistance str1 str2 in
    let maxLength := Z.of_nat (length str1 `max` length str2) in
    if decide (maxLength = 0) then 1%Q
    else (inject_Z (maxLength - distance) / inject_Z maxLength)%Q.

Definition findSimilarUsernames (username : jsstring) (recentJoins : list Join)
      : list Join :=
    base.filter
      (λ join, j_username join ≠ username
               ∧ Qle_bool (8 # 10) (calculateStringSimilarity username (j_username join))
                 = true)
      recentJoins.

  (** *** [analyzeJoin] *)

Definition analyzeJoin (opts : Options) (user : User) (guildData : GuildData)
      (guildConfig : GuildConfig) (now : Z) : JoinAnalysis :=
    let a := {| ja_riskScore := 0; ja_suspicious := false; ja_reasons := [];
                ja_action := ActNone |} in
    let accountAge := now - createdAt user in
    let minAccountAge :=
      or_default (accountAgeCfg guildConfig ≫= minimumAge) (accountAgeThreshold opts) in
    let a :=
      if decide (accountAge < minAccountAge) then
        let enabledAge := from_option aa_enabled false (accountAgeCfg guildConfig) in
        {| ja_riskScore := ja_riskScore a + 30;
           ja_suspicious := if enabledAge then true else ja_suspicious a;
           ja_reasons := ja_reasons a ++ [NewAccountReason];
           ja_action :=
             if enabledAge
             then default ActWarn (accountAgeCfg guildConfig ≫= aa_action)
             else ja_action a |}
      else a in
    let usernameAnalysis := analyzeUsername (username user) in
    let a :=
      if un_suspicious usernameAnalysis then
        {| ja_riskScore := ja_riskScore a + un_score usernameAnalysis;
           ja_suspicious := true;
           ja_reasons := ja_reasons a ++ un_reasons usernameAnalysis;
           ja_action := ja_action a |}
      else a in
    let a :=
      match avatar user with
      | Some (_ :: _) => a
      | _ => {| ja_riskScore := ja_riskScore a + 10;
                ja_suspicious := ja_suspicious a;
                ja_reasons := ja_reasons a ++ [DefaultAvatarReason];
                ja_action := ja_action a |}
      end in
    let similarUsers := findSimilarUsernames (username user) (joins guildData) in
    let a :=
      if decide (0 < length similarUsers)%nat then
        {| ja_riskScore := ja_riskScore a + Z.of_nat (length similarUsers) * 15;
           ja_suspicious := true;
           ja_reasons := ja_reasons a ++ [SimilarToRecent (Z.of_nat (length similarUsers))];
           ja_action := ja_action a |}
      else a in
    let recentJoins := base.filter (λ join, now - joinedAt join < 30000) (joins guildData) in
    let a :=
      if decide (3 ≤ length recentJoins)%nat then
        {| ja_riskScore := ja_riskScore a + 25;
           ja_suspicious := true;
           ja_reasons := ja_reasons a ++ [RapidJoinPattern];
           ja_action := ja_action a |}
      else a in
    {| ja_riskScore := ja_riskScore a;
       ja_suspicious := ja_suspicious a;
       ja_reasons := ja_reasons a;
       ja_action :=
         if decide (70 ≤ ja_riskScore a) then ActBan
         else if decide (50 ≤ ja_riskScore a) then ActKick
         else if decide (30 ≤ ja_riskScore a) then ActWarn
         else ja_action a |}.

  (** *** [checkRaidConditions] *)

  (** [recentJoins.length - new Set(usernames).size] *)
Definition repeated_usernames (recentJoins : list Join) : Z :=
    Z.of_nat (length recentJoins)
    - Z.of_nat (length (remove_dups (j_username <$> recentJoins))).

Definition checkRaidConditions (opts : Options) (guildData : GuildData)
      (guildConfig : GuildConfig) (now : Z) : RaidCheck :=
    let timeWindow := or_default (timeWindow guildConfig) (o_timeWindow opts) in
    let joinThreshold := or_default (joinThreshold guildConfig) (o_joinThreshold opts) in
    let recentJoins :=
      base.filter (λ join, now - joinedAt join < timeWindow) (joins guildData) in
    let isRaid := bool_decide (joinThreshold ≤ Z.of_nat (length recentJoins)) in
    let '(raidScore, indicators) :=
      if isRaid then (50, [JoinRate (Z.of_nat (length recentJoins))]) else (0, []) in
    let suspiciousJoins := base.filter (λ join, suspicious join = true) recentJoins in
    let '(raidScore, indicators) :=
      if decide (2 ≤ length suspiciousJoins)%nat
      then (raidScore + 30,
            indicators ++ [SuspiciousAccounts (Z.of_nat (length suspiciousJoins))])
      else (raidScore, indicators) in
    let '(raidScore, indicators) :=
      if decide (2 ≤ repeated_usernames recentJoins)
      then (raidScore + 25, indicators ++ [SimilarUsernames])
      else (raidScore, indicators) in
    let newAccounts :=
      base.filter (λ join, now - accountCreated join < accountAgeThreshold opts)
                  recentJoins in
    let '(raidScore, indicators) :=
      if decide (3 ≤ length newAccounts)%nat
      then (raidScore + 20, indicators ++ [NewAccounts (Z.of_nat (length newAccounts))])
      else (raidScore, indicators) in
    {| isRaid := isRaid;
       raidScore := raidScore;
       indicators := indicators;
       rc_recentJoins := Z.of_nat (length recentJoins);
       rc_suspiciousJoins := Z.of_nat (length suspiciousJoins);
       rc_timeWindow := timeWindow |}.

  (** *** [monitorJoin]

      The three readings of the clock are [now] (on entry), [now_analyze] (in
      [analyzeJoin]) and [now_check] (in [checkRaidConditions], and in
      [handleRaidDetection] for [raidStarted]). *)
Definition monitorJoin (opts : Options) (st : State) (guildId : jsstring)
      (user : User) (guildConfig : GuildConfig) (now now_analyze now_check : Z)
      : State * Monitored :=
    if negb (enabled guildConfig) then
      (st, {| action := ActNone; m_suspicious := None; raidDetected := None;
              m_riskScore := None |})
    else
      let guildData :=
        default {| joins := []; lastRaidCheck := now; raidActive := false;
                   raidStarted := None |}
                (st !! guildId) in
      let joined :=
        joins guildData
        ++ [{| userId := id user;
               j_username := username user;
               j_discriminator := discriminator user;
               accountCreated := createdAt user;
               joinedAt := now;
               j_avatar := avatar user;
               suspicious := false |}] in
      let timeWindow := or_default (timeWindow guildConfig) (o_timeWindow opts) in
      let guildData :=
        {| joins := base.filter (λ join, now - joinedAt join < timeWindow) joined;
           lastRaidCheck := lastRaidCheck guildData;
           raidActive := raidActive guildData;
           raidStarted := raidStarted guildData |} in
      let analysis := analyzeJoin opts user guildData guildConfig now_analyze in
      let raidCheck := checkRaidConditions opts guildData guildConfig now_check in
      let guildData :=
        if isRaid raidCheck && negb (raidActive guildData) then
          {| joins := joins guildData;
             lastRaidCheck := lastRaidCheck guildData;
             raidActive := true;
             raidStarted := Some now_check |}
        else guildData in
      (<[guildId := guildData]> st,
       {| action := ja_action analysis;
          m_suspicious := Some (ja_suspicious analysis);
          raidDetected := Some (isRaid raidCheck);
          m_riskScore := Some (ja_riskScore analysis) |}).

End RaidProtection.

(** ** contentFilter.js *)

Module ContentFilter.

  (** [this.config] *)
Record Config := {
    enabled : bool;
    strictMode : bool;
    customWords : list jsstring;
    whitelist : list jsstring;
    allowedFileTypes : list jsstring;
    maxFileSize : Z
  }.

Inductive Language := English | Spanish | French | German | Portuguese.

#[global] Instance Language_eq_dec : EqDecision Language.
Proof. solve_decision. Defined.

  (** [analysis.language] *)
Inductive LanguageTag := Unknown | Builtin (language : Language) | Custom.

Definition profanityLists : list (Language * list jsstring) :=
    [ (English,
       str <$> [ "damn"; "hell"; "crap"; "stupid"; "idiot"; "moron"; "dumb";
                 "shit"; "piss"; "ass"; "bitch"; "bastard"; "whore"; "slut";
                 "fuck"; "fucking"; "fucked"; "fucker"; "motherfucker";
                 "cunt"; "cock"; "dick"; "pussy"; "tits"; "boobs";
                 "nigger"; "nigga"; "faggot"; "retard"; "spic"; "chink";
                 "kike"; "wetback"; "towelhead"; "raghead" ]%string);
      (Spanish,
       [ str "mierda"; str "joder"; str "co" ++ [0xF1%N] ++ str "o"; str "puta";
         str "hijo de puta"; str "cabr" ++ [0xF3%N] ++ str "n"; str "pendejo";
         str "maric" ++ [0xF3%N] ++ str "n"; str "gilipollas";
         str "imb" ++ [0xE9%N] ++ str "cil" ]);
      (French,
       [ str "merde"; str "putain"; str "connard"; str "salope";
         str "encul" ++ [0xE9%N]; str "fils de pute"; str "con"; str "bite";
         str "chatte"; str "bordel" ]);
      (German,
       [ str "schei" ++ [0xDF%N] ++ str "e"; str "fick"; str "arsch"; str "fotze";
         str "hurensohn"; str "wichser"; str "schwanz"; str "muschi";
         str "verdammt" ]);
      (Portuguese,
       [ str "merda"; str "caralho"; str "porra"; str "filho da puta"; str "puta";
         str "cu"; str "buceta"; str "cacete"; str "desgra" ++ [0xE7%N] ++ str "a" ]) ].

  (** [this.severityLevels] *)
Definition mild : Z := 1.
Definition moderate : Z := 2.
Definition strong : Z := 3.
Definition extreme : Z := 4.
Definition custom : Z := 2.

  (** *** [compilePatterns] *)

  (** [word.replace(/[.*+?^${}()|[\]\\]/g, '\\$&')] *)
Definition escape (word : jsstring) : jsstring :=
    word ≫= λ c, if is_syntax_char c then [92%N; c] else [c].

  (** [s.replace(/class/gi, replacement)], for a class of ASCII letters given
      in lower case and a replacement without substitution patterns for it
      (["$5"] stands for itself, the expressions having no group). *)
Definition replace_letters (class : jsstring) (replacement : jsstring)
      (s : jsstring) : jsstring :=
    s ≫= λ c, if bool_decide (toLowerCase_unit c ∈ class ∧ in_range 0 127 c = true)
              then replacement else [c].

Definition evasion_source (word : jsstring) : jsstring :=
    let escapedWord := escape word in
    let pattern := replace_letters (str "aeiou") (str "[aeiou@3!0]") escapedWord in
    let pattern := replace_letters (str "s") (str "[s$5z]") pattern in
    let pattern := replace_letters (str "l") (str "[l1!|]") pattern in
    let pattern := replace_letters (str "o") (str "[o0@]") pattern in
    let pattern := replace_letters (str "i") (str "[i1!|]") pattern in
    pattern.

  (** [new RegExp(`\\b${source}\\b`, 'gi')] *)
Definition word_regex (source : jsstring) : option (list atom) :=
    parse_regex (str "\b" ++ source ++ str "\b").

Record Patterns := {
    builtin : list (Language * list (list atom));
    customPatterns : option (list (list atom))
  }.

  (** [None] when a source is outside the modelled fragment. *)
Definition compilePatterns (cfg : Config) : option Patterns :=
    builtin ← mapM (λ '(language, words),
                     pair language <$> mapM (λ word, word_regex (evasion_source word)) words)
                   profanityLists;
    customPatterns ←
      (if decide (0 < length (customWords cfg))%nat
       then Some <$> mapM (λ word, word_regex (escape word)) (customWords cfg)
       else Some None);
    Some {| builtin := builtin; customPatterns := customPatterns |}.

  (** *** [analyzeText] *)

Inductive Detection :=
  | Profanity (language : Language) (word : jsstring) (matches : Z) (severity : Z)
  | CustomWord (word : jsstring) (matches : Z) (severity : Z)
  | ForbiddenFileType (fileName fileType : jsstring) (severity : Z)
  | FileTooLarge (fileName : jsstring) (fileSize maxSize : Z) (severity : Z)
  | SuspiciousFilename (fileName : jsstring) (severity : Z).

  (** The analysis objects of [analyzeText] and [analyzeAttachments]. *)
Record Analysis := {
    filtered : bool;
    severity : Z;
    detections : list Detection;
    confidence : Z;
    language : LanguageTag
  }.

Definition getWordSeverity (word : jsstring) : Z :=
    let lowerWord := toLowerCase word in
    let extremeWords :=
      str <$> [ "nigger"; "nigga"; "faggot"; "retard"; "spic"; "chink";
                "kike"; "wetback"; "towelhead"; "raghead" ]%string in
    let strongWords :=
      str <$> [ "fuck"; "fucking"; "fucked"; "fucker"; "motherfucker";
                "cunt"; "cock"; "dick"; "pussy"; "tits"; "boobs" ]%string in
    let moderateWords :=
      str <$> [ "shit"; "piss"; "ass"; "bitch"; "bastard"; "whore"; "slut" ]%string in
    if decide (lowerWord ∈ extremeWords) then extreme
    else if decide (lowerWord ∈ strongWords) then strong
    else if decide (lowerWord ∈ moderateWords) then moderate
    else mild.

  (** The loop over the patterns of one language; in strict mode it stops at
      the first detection. *)
Fixpoint scan_words (strict : bool) (language : Language) (normalizedContent : jsstring)
      (entries : list (jsstring * list atom)) (analysis : Analysis) : Analysis :=
    match entries with
    | [] => analysis
    | (originalWord, pattern) :: entries =>
        let matches := match_pattern pattern normalizedContent in
        if decide (matches ≠ []) then
          let severity' := getWordSeverity originalWord in
          let analysis :=
            {| filtered := true;
               severity := Z.max (severity analysis) severity';
               detections :=
                 detections analysis
                 ++ [Profanity language originalWord (Z.of_nat (length matches)) severity'];
               confidence := confidence analysis + 20 * Z.of_nat (length matches);
               language := Builtin language |} in
          if strict then analysis
          else scan_words strict language normalizedContent entries analysis
        else scan_words strict language normalizedContent entries analysis
    end.

  (** [this.profanityLists[language]], whose [i]-th word names the [i]-th
      pattern. *)
Definition words_of (language : Language) : list jsstring :=
    from_option snd []
                (head (base.filter (λ entry, fst entry = language) profanityLists)).

  (** The loop over the languages; in strict mode it stops once something
      has been detected. *)
Fixpoint scan_languages (strict : bool) (normalizedContent : jsstring)
      (compiled : list (Language * list (list atom))) (analysis : Analysis) : Analysis :=
    match compiled with
    | [] => analysis
    | (language, patterns) :: compiled =>
        let analysis :=
          scan_words strict language normalizedContent
                     (zip (words_of language) patterns) analysis in
        if filtered analysis && strict then analysis
        else scan_languages strict normalizedContent compiled analysis
    end.

  (** The loop over the custom patterns. *)
Fixpoint scan_custom (normalizedContent : jsstring)
      (entries : list (jsstring * list atom)) (analysis : Analysis) : Analysis :=
    match entries with
    | [] => analysis
    | (customWord, pattern) :: entries =>
        let matches := match_pattern pattern normalizedContent in
        let analysis :=
          if decide (matches ≠ []) then
            {| filtered := true;
               severity := Z.max (severity analysis) custom;
               detections :=
                 detections analysis
                 ++ [CustomWord customWord (Z.of_nat (length matches)) custom];
               confidence := confidence analysis + 25 * Z.of_nat (length matches);
               language := Custom |}
          else analysis in
        scan_custom normalizedContent entries analysis
    end.

Definition clean : Analysis :=
    {| filtered := false; severity := 0; detections := []; confidence := 0;
       language := Unknown |}.

Definition analyzeText (cfg : Config) (compiled : Patterns) (content : jsstring)
      : Analysis :=
    if decide (content = [] ∨ length (trim content) = 0%nat) then clean
    else
      let normalizedContent := trim (toLowerCase content) in
      let analysis :=
        scan_languages (strictMode cfg) normalizedContent (builtin compiled) clean in
      match customPatterns compiled with
      | Some patterns =>
          scan_custom normalizedContent (zip (customWords cfg) patterns) analysis
      | None => analysis
      end.

  (** *** Attachments *)

Record Attachment := { name : jsstring; size : Z }.

  (** The text after the last dot, if there is a dot. *)
Fixpoint after_last_dot (fileName : jsstring) : option jsstring :=
    match fileName with
    | [] => None
    | c :: rest =>
        match after_last_dot rest with
        | Some extension => Some extension
        | None => if (c =? 46)%N then Some rest else None
        end
    end.

Definition getFileExtension (fileName : jsstring) : jsstring :=
    match after_last_dot fileName with
    | None => []
    | Some extension => toLowerCase extension
    end.

Definition isAllowedFileType (cfg : Config) (extension : jsstring) : bool :=
    bool_decide (toLowerCase extension ∈ allowedFileTypes cfg).

Record Suspicion := {
    suspicious : bool;
    s_severity : Z;
    s_confidence : Z
  }.

Definition checkSuspiciousFileName (fileName : jsstring) : Suspicion :=
    let result := {| suspicious := false; s_severity := 0; s_confidence := 0 |} in
    let lowerName := toLowerCase fileName in
    let executableExtensions :=
      str <$> [ "exe"; "bat"; "cmd"; "scr"; "com"; "pif"; "vbs"; "js" ]%string in
    let actualExtension := getFileExtension fileName in
    let result :=
      if decide (actualExtension ∈ executableExtensions)
      then {| suspicious := true; s_severity := 3; s_confidence := 40 |}
      else result in
    let suspiciousKeywords :=
      str <$> [ "virus"; "malware"; "trojan"; "keylogger"; "hack"; "crack";
                "keygen"; "patch"; "loader"; "cheat"; "bot"; "rat" ]%string in
    let result :=
      foldl (λ result keyword,
               if includes keyword lowerName
               then {| suspicious := true;
                       s_severity := Z.max (s_severity result) 2;
                       s_confidence := s_confidence result + 25 |}
               else result)
            result suspiciousKeywords in
    if decide (200 < length fileName)%nat
    then {| suspicious := true;
            s_severity := Z.max (s_severity result) 2;
            s_confidence := s_confidence result + 20 |}
    else result.

Definition detect (analysis : Analysis) (sev conf : Z) (d : Detection) : Analysis :=
    {| filtered := true;
       severity := Z.max (severity analysis) sev;
       detections := detections analysis ++ [d];
       confidence := confidence analysis + conf;
       language := language analysis |}.

Definition analyzeAttachments (cfg : Config) (attachments : list Attachment)
      : Analysis :=
    foldl (λ analysis attachment,
             let fileExtension := getFileExtension (name attachment) in
             let analysis :=
               if negb (isAllowedFileType cfg fileExtension)
               then detect analysis 2 30
                           (ForbiddenFileType (name attachment) fileExtension 2)
               else analysis in
             let analysis :=
               if decide (maxFileSize cfg < size attachment)
               then detect analysis 1 20
                           (FileTooLarge (name attachment) (size attachment)
                                         (maxFileSize cfg) 1)
               else analysis in
             let suspiciousName := checkSuspiciousFileName (name attachment) in
             if suspicious suspiciousName
             then detect analysis (s_severity suspiciousName) (s_confidence suspiciousName)
                         (SuspiciousFilename (name attachment) (s_severity suspiciousName))
             else analysis)
          clean attachments.

  (** *** [analyzeContent] *)

Record Author := { id : jsstring; tag : jsstring }.

Record Message := {
    content : jsstring;
    author : Author;
    attachments : option (list Attachment)
  }.

Definition isWhitelisted (cfg : Config) (user : Author) : bool :=
    bool_decide (id user ∈ whitelist cfg) || bool_decide (tag user ∈ whitelist cfg).

Definition determineAction (severity : Z) (userId : jsstring) : Action :=
    let violationCount := 0 in
    if decide (4 ≤ severity ∨ 5 ≤ violationCount) then ActBan
    else if decide (3 ≤ severity ∨ 3 ≤ violationCount) then ActKick
    else if decide (2 ≤ severity ∨ 2 ≤ violationCount) then ActTimeout
    else if decide (1 ≤ severity ∨ 1 ≤ violationCount) then ActWarn
    else ActDelete.

  (** The analysis object of [analyzeContent]. *)
Record ContentAnalysis := {
    c_filtered : bool;
    c_severity : Z;
    c_detections : list Detection;
    c_action : Action;
    c_confidence : Z;
    c_language : LanguageTag;
    userWhitelisted : bool
  }.

Inductive Outcome :=
  | FilteringDisabled
  | Analysed (analysis : ContentAnalysis).

  (** [this.detectionCache]: cache key to result and time stamp. *)
Abbreviation Cache := (gmap jsstring (ContentAnalysis * Z)).

Definition cacheTimeout : Z := 5 * 60 * 1000.

Definition cacheKey (message : Message) : jsstring :=
    id (author message) ++ str "-" ++ Utils.hashString (content message).

  (** [if (part.filtered) { analysis.filtered = true; ... }] *)
Definition merge (analysis : ContentAnalysis) (part : Analysis) (text : bool)
      : ContentAnalysis :=
    if filtered part then
      {| c_filtered := true;
         c_severity := Z.max (c_severity analysis) (severity part);
         c_detections := c_detections analysis ++ detections part;
         c_action := c_action analysis;
         c_confidence := c_confidence analysis + confidence part;
         c_language := if text then language part else c_language analysis;
         userWhitelisted := userWhitelisted analysis |}
    else analysis.

  (** [analyzeContent] after the look-up in the cache. *)
Definition analyze_uncached (cfg : Config) (compiled : Patterns) (cache : Cache)
      (message : Message) (now : Z) : Cache * Outcome :=
    let userId := id (author message) in
    let analysis :=
      {| c_filtered := false; c_severity := 0; c_detections := [];
         c_action := ActNone; c_confidence := 0; c_language := Unknown;
         userWhitelisted := false |} in
    if isWhitelisted cfg (author message) then
      (cache,
       Analysed {| c_filtered := false; c_severity := 0; c_detections := [];
                   c_action := ActNone; c_confidence := 0; c_language := Unknown;
                   userWhitelisted := true |})
    else
      let analysis := merge analysis (analyzeText cfg compiled (content message)) true in
      let analysis :=
        match attachments message with
        | Some (a :: rest) => merge analysis (analyzeAttachments cfg (a :: rest)) false
        | _ => analysis
        end in
      let analysis :=
        {| c_filtered := c_filtered analysis;
           c_severity := c_severity analysis;
           c_detections := c_detections analysis;
           c_action := determineAction (c_severity analysis) userId;
           c_confidence := Z.min (c_confidence analysis) 100;
           c_language := c_language analysis;
           userWhitelisted := false |} in
      (<[cacheKey message := (analysis, now)]> cache, Analysed analysis).

Definition analyzeContent (cfg : Config) (compiled : Patterns) (cache : Cache)
      (message : Message) (now : Z) : Cache * Outcome :=
    if negb (enabled cfg) then (cache, FilteringDisabled)
    else
      match cache !! cacheKey message with
      | Some (result, timestamp) =>
          if decide (now - timestamp < cacheTimeout) then (cache, Analysed result)
          else analyze_uncached cfg compiled cache message now
      | None => analyze_uncached cfg compiled cache message now
      end.

End ContentFilter.


(** * Reference definitions used by the properties *)

(** ** Reference recurrence for the edit-distance matrix

    [lev_rec a b] is the value the matrix holds at the cell whose row prefix,
    read backwards, is [a] and whose column prefix, read backwards, is [b]. *)

Fixpoint lev_rec (a : list N) : list N → Z :=
  fix inner (b : list N) : Z :=
    match a, b with
    | [], _ => Z.of_nat (length b)
    | _, [] => Z.of_nat (length a)
    | x :: a', y :: b' =>
        if decide (x = y) then lev_rec a' b'
        else Z.min (lev_rec a' b' + 1) (Z.min (inner b' + 1) (lev_rec a' b + 1))
    end.

(** The cell of row [i], column [j] for the strings [str1] (columns) and
    [str2] (rows). *)
Definition lev_at (str1 str2 : jsstring) (i j : nat) : Z :=
  lev_rec (rev (take i str2)) (rev (take j str1)).

(** The matrix after the cells up to row [i], column [j] have been written. *)
Definition lev_row (str1 str2 : jsstring) (i j i' : nat) : list Z :=
  if decide (i' < i)%nat then (λ j', lev_at str1 str2 i' j') <$> seq 0 (S (length str1))
  else if decide (i' = i) then (λ j', lev_at str1 str2 i' j') <$> seq 0 (S j)
  else [Z.of_nat i'].

Definition lev_matrix (str1 str2 : jsstring) (i j : nat) : list (list Z) :=
  (λ i', lev_row str1 str2 i j i') <$> seq 0 (S (length str2)).

(** ** Escalation scenarios *)

(** Successive [addViolation] calls for one user, each with its reason, its
    severity and the time it is made at. *)
Definition addViolations (st : SpamDetection.State) (userId : jsstring)
    (calls : list (jsstring * Q * Z)) : SpamDetection.State :=
  foldl (λ st '(reason, severity, now),
           fst (SpamDetection.addViolation st userId reason severity now))
        st calls.

(** The reading of the violation record that resets the count at read time,
    as the specification words it: once the last violation is more than one
    hour old, a read observes count 0. *)
Definition lazy_expiry_on_read : Prop :=
  ∀ (st : SpamDetection.State) (userId : jsstring) (now : Z),
    60 * 60 * 1000 < now - SpamDetection.lastViolation (SpamDetection.getUserViolations st userId) →
    SpamDetection.count (SpamDetection.getUserViolations st userId) = 0.

(** ** Repeated sends *)

(** One user sending the same message at the given times: the analyses, in
    the order of the sends. *)
Fixpoint send_all (cfg : SpamDetection.SpamConfig) (st : SpamDetection.State)
    (message : SpamDetection.Message) (times : list Z) : list SpamDetection.Analysis :=
  match times with
  | [] => []
  | now :: times =>
      let '(st, analysis) := SpamDetection.analyzeMessage cfg st message now in
      analysis :: send_all cfg st message times
  end.

Definition is_duplicate_reason (r : SpamDetection.Reason) : bool :=
  match r with
  | SpamDetection.DuplicateMessage _ => true
  | _ => false
  end.

(** The reasons a check contributes to the analysis. *)
Definition reasons_if {num} (r : SpamDetection.Check num) : list SpamDetection.Reason :=
  if SpamDetection.isSpam r then SpamDetection.reasons r else [].

(** The stored history of the sender. *)
Definition history (st : SpamDetection.State) (message : SpamDetection.Message)
  : list SpamDetection.Msg :=
  default [] (SpamDetection.userMessages st !! SpamDetection.author_id message).

(** The duplicate check contributed to the analysis. *)
Definition duplicate_triggered (analysis : SpamDetection.Analysis) : bool :=
  existsb is_duplicate_reason (SpamDetection.a_reasons analysis).

(** Number of exact content matches among messages. *)
Definition content_matches (messages : list SpamDetection.Msg) (content : jsstring) : Z :=
  Z.of_nat (length (base.filter (λ msg, SpamDetection.content msg = content) messages)).

(** ** Raid evaluation *)

(** The join window [detectRaid] evaluates: the guild's joins of the last ten
    minutes and the current join with its risk score. *)
Definition join_window (st : SecurityModule.State) (guildId : jsstring)
    (user : SecurityModule.User) (now : Z) : list SecurityModule.Join :=
  SecurityModule.window
    (default {| SecurityModule.recentJoins := [];
                SecurityModule.suspiciousJoins := 0;
                SecurityModule.lastRaidAlert := 0 |}
             (SecurityModule.raidDetection st !! guildId))
    {| SecurityModule.userId := SecurityModule.id user;
       SecurityModule.timestamp := now;
       SecurityModule.j_riskScore :=
         SecurityModule.riskScore (snd (SecurityModule.analyzeUser st user now));
       SecurityModule.accountAge := now - SecurityModule.createdTimestamp user |}
    now.

(** Joins with risk score above 30, and joins of accounts younger than 24
    hours. *)
Definition risky (joins : list SecurityModule.Join) : Z :=
  Z.of_nat (length (base.filter (λ join, 30 < SecurityModule.j_riskScore join) joins)).

Definition young (joins : list SecurityModule.Join) : Z :=
  Z.of_nat (length (base.filter (λ join, SecurityModule.accountAge join < 86400000) joins)).

Definition points (condition : Prop) `{Decision condition} (p : Z) : Z :=
  if decide condition then p else 0.

(** The accumulation as the specification words it: each of the four
    indicators adds its points on its own. *)
Definition independent_confidence (cfg : SecurityModule.RaidConfig)
    (joins : list SecurityModule.Join) : Z :=
  let n := Z.of_nat (length joins) in
  points (SecurityModule.joinThreshold cfg ≤ n) 30
  + points (6 * n ≤ 10 * risky joins) 40
  + points (40 * n < SecurityModule.risk_sum joins) 30
  + points (7 * n ≤ 10 * young joins) 35.

Definition raid_indicators_independent : Prop :=
  ∀ cfg st guildId user now,
    let a := snd (SecurityModule.detectRaid cfg st guildId user now) in
    SecurityModule.confidence a
    = independent_confidence cfg (join_window st guildId user now)
    ∧ SecurityModule.isRaid a = bool_decide (60 ≤ SecurityModule.confidence a).

(** The accumulation of the code: the three further indicators count only
    once the join count has reached the threshold. *)
Definition gated_confidence (cfg : SecurityModule.RaidConfig)
    (joins : list SecurityModule.Join) : Z :=
  let n := Z.of_nat (length joins) in
  if decide (SecurityModule.joinThreshold cfg ≤ n) then
    30
    + points (6 * n ≤ 10 * risky joins) 40
    + points (40 * n < SecurityModule.risk_sum joins) 30
    + points (7 * n ≤ 10 * young joins) 35
  else 0.

Definition gated_recommendations (cfg : SecurityModule.RaidConfig)
    (joins : list SecurityModule.Join) : list SecurityModule.Recommendation :=
  let n := Z.of_nat (length joins) in
  (if decide (SecurityModule.joinThreshold cfg ≤ n) then
     (if decide (6 * n ≤ 10 * risky joins) then [SecurityModule.EnableVerification] else [])
     ++ (if decide (40 * n < SecurityModule.risk_sum joins)
         then [SecurityModule.RestrictNewMembers] else [])
     ++ (if decide (7 * n ≤ 10 * young joins)
         then [SecurityModule.AccountAgeRequirements] else [])
   else [])
  ++ (if decide (60 ≤ gated_confidence cfg joins)
      then [SecurityModule.ConsiderLockdown] else []).

(** ** Successive joins *)

(** A member joining, with the three readings of the clock made while
    [monitorJoin] handles the join. *)
Record JoinEvent := {
  member : RaidProtection.User;
  at_entry : Z;
  at_analysis : Z;
  at_check : Z
}.

(** The results of [monitorJoin] for successive joins of one guild. *)
Fixpoint monitor_all (opts : RaidProtection.Options) (st : gmap jsstring RaidProtection.GuildData)
    (guildId : jsstring) (guildConfig : RaidProtection.GuildConfig)
    (events : list JoinEvent) : list RaidProtection.Monitored :=
  match events with
  | [] => []
  | e :: events =>
      let '(st, result) :=
        RaidProtection.monitorJoin opts st guildId (member e) guildConfig
                                   (at_entry e) (at_analysis e) (at_check e) in
      result :: monitor_all opts st guildId guildConfig events
  end.

(** The joins tracked for a guild. *)
Definition tracked_joins (st : gmap jsstring RaidProtection.GuildData) (guildId : jsstring)
  : list RaidProtection.Join :=
  from_option RaidProtection.joins [] (st !! guildId).

(** ** Content filter set-ups *)

(** The configuration of a filter constructed without options, with the
    given strict mode and custom words. *)
Definition filterConfig (strict : bool) (words : list jsstring) : ContentFilter.Config :=
  {| ContentFilter.enabled := true;
     ContentFilter.strictMode := strict;
     ContentFilter.customWords := words;
     ContentFilter.whitelist := [];
     ContentFilter.allowedFileTypes :=
       str <$> [ "jpg"; "jpeg"; "png"; "gif"; "webp"; "mp4"; "mov"; "avi";
                 "pdf"; "txt"; "doc"; "docx"; "zip"; "rar" ]%string;
     ContentFilter.maxFileSize := 50 * 1024 * 1024 |}.

(** The patterns the constructor compiles for a configuration; the sources
    of the built-in lists and of escaped custom words all lie in the
    modelled fragment. *)
Definition compiled (cfg : ContentFilter.Config) : ContentFilter.Patterns :=
  default {| ContentFilter.builtin := []; ContentFilter.customPatterns := None |}
          (ContentFilter.compilePatterns cfg).

(** The built-in words of all languages. *)
Definition builtin_words : list jsstring :=
  ContentFilter.profanityLists ≫= snd.

(** ** Signals of the content pattern check *)

(** A run of [n] equal code units, other than line terminators, somewhere in
    the text. *)
Definition has_run (n : nat) (s : jsstring) : Prop :=
  ∃ pre c post, s = pre ++ replicate n c ++ post ∧ is_line_terminator c = false.

Definition is_capital (c : N) : bool := in_range 65 90 c.

(** Total length of the runs of at least ten capital letters, as
    [/[A-Z]{10,}/g] matches them. *)
Definition caps_total (s : jsstring) : Z :=
  SpamDetection.total_length (match_g SpamDetection.capsLock s).

Definition count_units (P : N → bool) (s : list N) : nat :=
  length (base.filter (λ c, P c = true) s).

Definition repeated_signal (s : jsstring) : bool :=
  bool_decide (match_g SpamDetection.repeatedChars s ≠ []).

Definition caps_signal (s : jsstring) : bool :=
  bool_decide ((20 < length s)%nat ∧ 7 * Z.of_nat (length s) < 10 * caps_total s).

Definition emoji_signal (s : jsstring) : bool :=
  bool_decide (10 < count_units SpamDetection.is_emoji (codePoints s))%nat.

Definition zalgo_signal (s : jsstring) : bool :=
  bool_decide (20 < count_units SpamDetection.is_zalgo s)%nat.

Definition invisible_signal (s : jsstring) : bool :=
  bool_decide (5 < count_units SpamDetection.is_invisible s)%nat.

Definition weighted (signal : bool) (p : Z) : Z := if signal then p else 0.

(** The additions as the specification lists them, with +35/+35 for the
    combining marks. *)
Definition pattern_points_as_specified : Prop :=
  ∀ content,
    SpamDetection.confidence (SpamDetection.checkContentPatterns content)
    = weighted (repeated_signal content) 25 + weighted (caps_signal content) 20
      + weighted (emoji_signal content) 30 + weighted (zalgo_signal content) 35
      + weighted (invisible_signal content) 35
    ∧ SpamDetection.severity (SpamDetection.checkContentPatterns content)
      = weighted (repeated_signal content) 20 + weighted (caps_signal content) 15
        + weighted (emoji_signal content) 25 + weighted (zalgo_signal content) 35
        + weighted (invisible_signal content) 30.

(** * Properties *)

(** ** The edit-distance matrix *)

Section Levenshtein.

Lemma lev_rec_nil_l b : lev_rec [] b = Z.of_nat (length b).
Proof. by destruct b. Qed.

Lemma lev_rec_nil_r a : lev_rec a [] = Z.of_nat (length a).
Proof. by destruct a. Qed.

Lemma lev_rec_cons x a y b :
    lev_rec (x :: a) (y :: b) =
    if decide (x = y) then lev_rec a b
    else Z.min (lev_rec a b + 1)
               (Z.min (lev_rec (x :: a) b + 1) (lev_rec a (y :: b) + 1)).
Proof. reflexivity. Qed.

Lemma lev_rec_sym a : ∀ b, lev_rec a b = lev_rec b a.
Proof.
    induction a as [|x a IHa]; intros b.
    - by rewrite lev_rec_nil_l, lev_rec_nil_r.
    - induction b as [|y b IHb].
      + by rewrite lev_rec_nil_l, lev_rec_nil_r.
      + rewrite !lev_rec_cons, IHb, <- (IHa b), <- (IHa (y :: b)).
        destruct (decide (x = y)) as [->|Hne].
        * by rewrite decide_True.
        * rewrite decide_False by congruence. lia.
Qed.

Lemma lev_rec_diag a : lev_rec a a = 0.
Proof.
    induction a as [|x a IH]; [done|].
    by rewrite lev_rec_cons, decide_True.
Qed.


  (** A loop [for (k = start; k < start + n; k++)] preserves an invariant
      indexed by the loop counter. *)
Lemma foldl_seq_ind {A} (P : nat → A → Prop) (f : A → nat → A) n :
    ∀ start a,
      P start a →
      (∀ k a, (start ≤ k < start + n)%nat → P k a → P (S k) (f a k)) →
      P (start + n)%nat (foldl f a (seq start n)).
Proof.
    induction n as [|n IH]; intros start a Ha Hstep; simpl.
    - by rewrite Nat.add_0_r.
    - replace (start + S n)%nat with (S start + n)%nat by lia.
      apply IH.
      + apply Hstep; [lia|done].
      + intros k a' Hk. apply Hstep. lia.
Qed.

Variables str1 str2 : jsstring.

Lemma lev_at_0_l j : (j ≤ length str1)%nat → lev_at str1 str2 0 j = Z.of_nat j.
Proof.
    intros Hj. unfold lev_at. rewrite take_0, lev_rec_nil_l.
    rewrite length_rev, length_take. lia.
Qed.

Lemma lev_at_0_r i : (i ≤ length str2)%nat → lev_at str1 str2 i 0 = Z.of_nat i.
Proof.
    intros Hi. unfold lev_at. rewrite take_0, lev_rec_nil_r.
    rewrite length_rev, length_take. lia.
Qed.

Lemma rev_take_S (s : jsstring) n :
    (n < length s)%nat →
    ∃ x, s !! n = Some x ∧ rev (take (S n) s) = x :: rev (take n s).
Proof.
    intros Hn. destruct (lookup_lt_is_Some_2 s n Hn) as [x Hx].
    exists x. split; [done|].
    by rewrite (take_S_r _ _ _ Hx), rev_unit.
Qed.

Lemma lev_at_S i j :
    (i < length str2)%nat → (j < length str1)%nat →
    lev_at str1 str2 (S i) (S j) =
    if Utils.charAt_eqb str2 i str1 j then lev_at str1 str2 i j
    else Z.min (lev_at str1 str2 i j + 1)
               (Z.min (lev_at str1 str2 (S i) j + 1) (lev_at str1 str2 i (S j) + 1)).
Proof.
    intros Hi Hj. unfold lev_at, Utils.charAt_eqb.
    destruct (rev_take_S str2 i Hi) as (x & Hx & ->).
    destruct (rev_take_S str1 j Hj) as (y & Hy & ->).
    rewrite lev_rec_cons, Hx, Hy.
    destruct (decide (x = y)) as [->|Hne].
    - by rewrite bool_decide_eq_true_2.
    - rewrite bool_decide_eq_false_2; [done|congruence].
Qed.

Lemma lev_matrix_lookup i j i' :
    (i' ≤ length str2)%nat →
    lev_matrix str1 str2 i j !! i' = Some (lev_row str1 str2 i j i').
Proof.
    intros Hi'. unfold lev_matrix.
    rewrite list_lookup_fmap, lookup_seq_lt by lia. done.
Qed.

Lemma lev_matrix_length i j :
    length (lev_matrix str1 str2 i j) = S (length str2).
Proof. unfold lev_matrix. by rewrite length_fmap, length_seq. Qed.

Lemma mget_lev_matrix i j i' j' :
    (i' ≤ length str2)%nat →
    (i' < i ∧ j' ≤ length str1 ∨ i' = i ∧ j' ≤ j)%nat →
    Utils.mget (lev_matrix str1 str2 i j) i' j' = lev_at str1 str2 i' j'.
Proof.
    intros Hi' Hcell. unfold Utils.mget.
    rewrite lev_matrix_lookup by done. simpl. unfold lev_row.
    destruct Hcell as [[??]|[-> ?]].
    - rewrite decide_True by done.
      rewrite list_lookup_fmap, lookup_seq_lt by lia. done.
    - destruct (decide (i < i)%nat) as [?|_]; [lia|].
      rewrite decide_True by done.
      rewrite list_lookup_fmap, lookup_seq_lt by lia. done.
Qed.

Lemma lev_matrix_next_row i :
    lev_matrix str1 str2 i (length str1) = lev_matrix str1 str2 (S i) 0.
Proof.
    apply list_eq. intros i'.
    destruct (decide (i' ≤ length str2)%nat) as [Hi'|Hi'].
    - rewrite !lev_matrix_lookup by done. f_equal. unfold lev_row.
      repeat case_decide; try lia; try done.
      subst i'. simpl. by rewrite lev_at_0_r.
    - rewrite !lookup_ge_None_2; [done| |]; rewrite lev_matrix_length; lia.
Qed.

Lemma mset_lev_matrix_append i j :
    (i ≤ length str2)%nat →
    Utils.mset (lev_matrix str1 str2 i j) i (S j) (lev_at str1 str2 i (S j))
    = lev_matrix str1 str2 i (S j).
Proof.
    intros Hi. apply list_eq. intros i'. unfold Utils.mset.
    destruct (decide (i' = i)) as [->|Hne].
    - rewrite list_lookup_alter, !lev_matrix_lookup by done. simpl. f_equal.
      unfold lev_row. destruct (decide (i < i)%nat) as [?|_]; [lia|].
      rewrite !decide_True by done.
      unfold js_set. rewrite length_fmap, length_seq.
      destruct (decide (S j < S j)%nat) as [?|_]; [lia|].
      by rewrite (seq_S (S j)), fmap_app.
    - rewrite list_lookup_alter_ne by done.
      destruct (decide (i' ≤ length str2)%nat) as [Hi'|Hi'].
      + rewrite !lev_matrix_lookup by done. f_equal. unfold lev_row.
        repeat case_decide; try lia; done.
      + rewrite !lookup_ge_None_2; [done| |]; rewrite lev_matrix_length; lia.
Qed.


Lemma lev_init_rows_spec :
    Utils.lev_init_rows str2 = lev_matrix str1 str2 0 0.
Proof.
    unfold Utils.lev_init_rows.
    pose (P := λ (k : nat) (m : list (list Z)),
                 m = (λ i, [Z.of_nat i]) <$> seq 0 k).
    assert (P (0 + S (length str2))%nat
              (foldl (λ m i, js_set m i [Z.of_nat i]) [] (seq 0 (S (length str2)))))
      as HP.
    { apply foldl_seq_ind; [done|].
      intros k m _ ->. unfold P, js_set.
      rewrite length_fmap, length_seq.
      destruct (decide (k < k)%nat) as [?|_]; [lia|].
      by rewrite seq_S, fmap_app. }
    rewrite HP. unfold lev_matrix. apply list_fmap_ext.
    intros k i Hk. apply lookup_seq in Hk as [-> Hk]. unfold lev_row.
    destruct (decide (0 + k < 0)%nat) as [?|_]; [lia|].
    case_decide as Hk0; [|done].
    simpl in Hk0. subst k. simpl. by rewrite lev_at_0_l by lia.
Qed.

Lemma mset_lev_matrix_origin :
    Utils.mset (lev_matrix str1 str2 0 0) 0 0 0 = lev_matrix str1 str2 0 0.
Proof.
    apply list_eq. intros i'. unfold Utils.mset.
    destruct (decide (i' = 0%nat)) as [->|Hne].
    - by rewrite list_lookup_alter, !lev_matrix_lookup by lia.
    - by rewrite list_lookup_alter_ne.
Qed.

Lemma lev_init_row0_spec :
    Utils.lev_init_row0 str1 (lev_matrix str1 str2 0 0)
    = lev_matrix str1 str2 0 (length str1).
Proof.
    unfold Utils.lev_init_row0.
    pose (P := λ (k : nat) (m : list (list Z)),
                 m = lev_matrix str1 str2 0 (k - 1)).
    assert (P (0 + S (length str1))%nat
              (foldl (λ m j, Utils.mset m 0 j (Z.of_nat j))
                     (lev_matrix str1 str2 0 0) (seq 0 (S (length str1)))))
      as HP.
    { apply foldl_seq_ind; [done|].
      intros k m Hk ->. unfold P. destruct k as [|k].
      - apply mset_lev_matrix_origin.
      - replace (S k - 1)%nat with k by lia.
        replace (S (S k) - 1)%nat with (S k) by lia.
        rewrite <- (lev_at_0_l (S k)) by lia.
        apply mset_lev_matrix_append. lia. }
    rewrite HP. f_equal. lia.
Qed.

Lemma lev_cell_spec i j :
    (1 ≤ i ≤ length str2)%nat → (1 ≤ j ≤ length str1)%nat →
    Utils.lev_cell str1 str2 (lev_matrix str1 str2 i (j - 1)) i j
    = lev_at str1 str2 i j.
Proof.
    intros Hi Hj. unfold Utils.lev_cell.
    destruct i as [|i]; [lia|]. destruct j as [|j]; [lia|].
    replace (S i - 1)%nat with i by lia.
    replace (S j - 1)%nat with j by lia.
    rewrite !mget_lev_matrix by lia.
    by rewrite lev_at_S by lia.
Qed.

Lemma lev_inner_spec i :
    (1 ≤ i ≤ length str2)%nat →
    Utils.lev_inner str1 str2 (lev_matrix str1 str2 i 0) i
    = lev_matrix str1 str2 i (length str1).
Proof.
    intros Hi. unfold Utils.lev_inner.
    pose (P := λ (k : nat) (m : list (list Z)),
                 m = lev_matrix str1 str2 i (k - 1)).
    assert (P (1 + length str1)%nat
              (foldl (λ m j, Utils.mset m i j (Utils.lev_cell str1 str2 m i j))
                     (lev_matrix str1 str2 i 0) (seq 1 (length str1))))
      as HP.
    { apply foldl_seq_ind; [done|].
      intros k m Hk ->. unfold P.
      rewrite lev_cell_spec by lia.
      destruct k as [|k]; [lia|].
      replace (S k - 1)%nat with k by lia.
      replace (S (S k) - 1)%nat with (S k) by lia.
      apply mset_lev_matrix_append. lia. }
    rewrite HP. f_equal. lia.
Qed.

Lemma lev_fill_spec :
    Utils.lev_fill str1 str2 (lev_matrix str1 str2 0 (length str1))
    = lev_matrix str1 str2 (length str2) (length str1).
Proof.
    unfold Utils.lev_fill.
    pose (P := λ (k : nat) (m : list (list Z)),
                 m = lev_matrix str1 str2 (k - 1) (length str1)).
    assert (P (1 + length str2)%nat
              (foldl (Utils.lev_inner str1 str2)
                     (lev_matrix str1 str2 0 (length str1)) (seq 1 (length str2))))
      as HP.
    { apply foldl_seq_ind; [done|].
      intros k m Hk ->. unfold P.
      destruct k as [|k]; [lia|].
      replace (S k - 1)%nat with k by lia.
      replace (S (S k) - 1)%nat with (S k) by lia.
      rewrite lev_matrix_next_row. apply lev_inner_spec. lia. }
    rewrite HP. f_equal. lia.
Qed.

  (** The loops of [levenshteinDistance] compute the reference recurrence. *)
Lemma levenshteinDistance_spec :
    Utils.levenshteinDistance str1 str2 = lev_rec (rev str2) (rev str1).
Proof.
    unfold Utils.levenshteinDistance.
    rewrite lev_init_rows_spec, lev_init_row0_spec, lev_fill_spec.
    rewrite mget_lev_matrix by lia.
    unfold lev_at. by rewrite !firstn_all.
Qed.

End Levenshtein.

Lemma levenshteinDistance_sym a b :
  Utils.levenshteinDistance a b = Utils.levenshteinDistance b a.
Proof. rewrite !levenshteinDistance_spec. apply lev_rec_sym. Qed.

Lemma levenshteinDistance_diag s : Utils.levenshteinDistance s s = 0.
Proof. rewrite levenshteinDistance_spec. apply lev_rec_diag. Qed.

Lemma levenshteinDistance_empty s :
  Utils.levenshteinDistance s [] = Z.of_nat (length s).
Proof.
  rewrite levenshteinDistance_spec. simpl.
  by rewrite lev_rec_nil_l, length_rev.
Qed.

(** ** C5: the similarity ratio *)

Lemma calculateSimilarity_unfold a b :
  (0 < length a ∨ 0 < length b)%nat →
  Utils.calculateSimilarity a b =
  (inject_Z (Z.of_nat (length a `max` length b) - Utils.levenshteinDistance a b)
   / inject_Z (Z.of_nat (length a `max` length b)))%Q.
Proof.
  intros Hlen. unfold Utils.calculateSimilarity.
  destruct (decide (length b < length a)%nat) as [Hlt|Hge].
  - rewrite decide_False by lia. by rewrite Nat.max_l by lia.
  - rewrite decide_False by lia. rewrite Nat.max_r by lia.
    by rewrite (levenshteinDistance_sym b a).
Qed.



Example calculateSimilarity_kitten_sitting :
  Utils.levenshteinDistance (str "kitten") (str "sitting") = 3 ∧
  (Utils.calculateSimilarity (str "kitten") (str "sitting") == 4 # 7)%Q.
Proof. split; reflexivity. Qed.

(** ** C1: the escalation decision *)

Section Escalation.
Import SpamDetection.

Lemma Qle_bool_false_iff x y : Qle_bool x y = false ↔ ¬ (x <= y)%Q.
Proof.
    rewrite <- Qle_bool_iff. destruct (Qle_bool x y); intuition congruence.
Qed.

Lemma getUserViolations_fresh st userId :
    userViolations st !! userId = None →
    getUserViolations st userId =
    {| count := 0; lastViolation := 0; lastReason := None; lastSeverity := None |}.
Proof. intros H. unfold getUserViolations. by rewrite H. Qed.

Lemma addViolation_count st userId reason severity now :
    count (getUserViolations (fst (addViolation st userId reason severity now)) userId)
    = count (getUserViolations st userId) + 1.
Proof.
    unfold addViolation, getUserViolations at 1. simpl.
    by rewrite lookup_insert_eq.
Qed.

Lemma addViolations_count calls : ∀ st userId,
    count (getUserViolations (addViolations st userId calls) userId)
    = count (getUserViolations st userId) + Z.of_nat (length calls).
Proof.
    induction calls as [|[[reason severity] now] calls IH]; intros st userId.
    - simpl. lia.
    - change (addViolations st userId ((reason, severity, now) :: calls))
        with (addViolations (fst (addViolation st userId reason severity now))
                            userId calls).
      rewrite IH, addViolation_count. simpl length. lia.
Qed.

  (** C1. [determineAction] maps the severity and the user's violation count
      to an action by tiers where either threshold suffices: ban from
      severity 80 or count 5, else kick from 60 or 3, else timeout from 40 or
      2, else warn from 20 or 1, else none.  For a user without a violation
      record severity 85 yields ban, and after five [addViolation] calls
      (whatever their severities, so with severity 10 each) a decision at
      severity 10 yields ban from the count alone, which severity 10 does not
      yield on a fresh record. *)
Theorem determineAction_tiers :
    (∀ st userId severity,
       let n := count (getUserViolations st userId) in
       ((80 <= severity)%Q ∨ 5 ≤ n → determineAction st userId severity = ActBan) ∧
       (¬ ((80 <= severity)%Q ∨ 5 ≤ n) → (60 <= severity)%Q ∨ 3 ≤ n →
        determineAction st userId severity = ActKick) ∧
       (¬ ((60 <= severity)%Q ∨ 3 ≤ n) → (40 <= severity)%Q ∨ 2 ≤ n →
        determineAction st userId severity = ActTimeout) ∧
       (¬ ((40 <= severity)%Q ∨ 2 ≤ n) → (20 <= severity)%Q ∨ 1 ≤ n →
        determineAction st userId severity = ActWarn) ∧
       (¬ ((20 <= severity)%Q ∨ 1 ≤ n) →
        determineAction st userId severity = ActNone)) ∧
    (∀ st userId,
       userViolations st !! userId = None →
       determineAction st userId 85 = ActBan) ∧
    (∀ st userId calls,
       userViolations st !! userId = None →
       length calls = 5%nat →
       determineAction st userId 10 = ActNone ∧
       count (getUserViolations (addViolations st userId calls) userId) = 5 ∧
       determineAction (addViolations st userId calls) userId 10 = ActBan).
Proof.
    split; [|split].
    - intros st userId severity n. unfold determineAction. fold n.
      destruct (Qle_bool 80 severity) eqn:H80;
        destruct (Qle_bool 60 severity) eqn:H60;
        destruct (Qle_bool 40 severity) eqn:H40;
        destruct (Qle_bool 20 severity) eqn:H20;
        repeat match goal with
               | H : Qle_bool _ _ = true |- _ => apply Qle_bool_iff in H
               | H : Qle_bool _ _ = false |- _ => apply Qle_bool_false_iff in H
               end;
        repeat case_bool_decide; simpl;
        repeat split; intros; try reflexivity; exfalso;
        intuition (try lra; try lia).
    - intros st userId Hfresh. unfold determineAction.
      by rewrite getUserViolations_fresh.
    - intros st userId calls Hfresh Hlen.
      pose proof (addViolations_count calls st userId) as Hcount.
      rewrite (getUserViolations_fresh st userId Hfresh), Hlen in Hcount.
      change (0 + Z.of_nat 5) with 5 in Hcount.
      split; [|split; [exact Hcount|]].
      + unfold determineAction. by rewrite getUserViolations_fresh.
      + unfold determineAction. by rewrite Hcount.
Qed.

Lemma determineAction_tiers_witness :
    let st := {| userMessages := ∅; userViolations := ∅ |} in
    let calls := replicate 5 (str "Spam detected", 10%Q, 1700000000000) in
    determineAction st (str "42") 85 = ActBan ∧
    determineAction (addViolations st (str "42") calls) (str "42") 10 = ActBan ∧
    determineAction st (str "42") 45 = ActTimeout.
Proof.
    split; [|split].
    - apply determineAction_tiers. done.
    - by apply determineAction_tiers.
    - apply determineAction_tiers.
      + intros [H|H]; vm_compute in H; [by destruct H|done].
      + left. by vm_compute.
Defined.


  (** ** C6: expiry of the violation count *)

Lemma getUserViolations_stored st userId v :
    userViolations st !! userId = Some v → getUserViolations st userId = v.
Proof. intros H. unfold getUserViolations. by rewrite H. Qed.

  (** A record whose last violation lies two hours back is read with its
      count as stored, and the decision escalates on it. *)
Lemma lazy_expiry_on_read_fails : ¬ lazy_expiry_on_read.
Proof.
    intros Hclaim.
    pose (st := {| userMessages := ∅;
                   userViolations :=
                     {[ str "42" := {| count := 3; lastViolation := 1700000000000;
                                        lastReason := Some (str "Spam detected");
                                        lastSeverity := Some 30%Q |} ]} |}).
    specialize (Hclaim st (str "42") (1700000000000 + 2 * 60 * 60 * 1000)).
    vm_compute in Hclaim. by specialize (Hclaim eq_refl).
Qed.

  (** C6, as the code has it.  The count is reset by the cleanup sweep, not
      by the read: a sweep run more than one hour after a user's last
      violation removes the record, so a read after the sweep observes count
      0; a read returns the stored record whatever the time, and a sweep run
      within the hour keeps the record. *)
Theorem violation_expiry_by_cleanup :
    (∀ st userId now,
       60 * 60 * 1000 < now - lastViolation (getUserViolations st userId) →
       count (getUserViolations (cleanup st now) userId) = 0) ∧
    (∀ st userId v,
       userViolations st !! userId = Some v →
       getUserViolations st userId = v) ∧
    (∀ st userId v now,
       userViolations st !! userId = Some v →
       now - lastViolation v ≤ 60 * 60 * 1000 →
       getUserViolations (cleanup st now) userId = v).
Proof.
    split; [|split].
    - intros st userId now Hold.
      unfold getUserViolations at 1. unfold cleanup. simpl.
      destruct (userViolations st !! userId) as [v|] eqn:Hv.
      + rewrite (getUserViolations_stored _ _ _ Hv) in Hold.
        rewrite map_lookup_filter_None_2; [done|].
        right. intros v' Hv'. simpl. rewrite Hv in Hv'. injection Hv' as <-.
        intros Hkeep. by apply Hkeep.
      + rewrite map_lookup_filter_None_2; [done|]. by left.
    - apply getUserViolations_stored.
    - intros st userId v now Hv Hyoung.
      apply getUserViolations_stored. unfold cleanup. simpl.
      apply map_lookup_filter_Some_2; [done|]. simpl. lia.
Qed.

Lemma violation_expiry_by_cleanup_witness :
    let v := {| count := 3; lastViolation := 1700000000000;
                lastReason := Some (str "Spam detected"); lastSeverity := Some 30%Q |} in
    let st := {| userMessages := ∅; userViolations := {[ str "42" := v ]} |} in
    count (getUserViolations (cleanup st (1700000000000 + 3600001)) (str "42")) = 0 ∧
    getUserViolations st (str "42") = v ∧
    getUserViolations (cleanup st (1700000000000 + 3600000)) (str "42") = v.
Proof.
    split; [|split].
    - apply violation_expiry_by_cleanup. vm_compute. done.
    - apply violation_expiry_by_cleanup. apply lookup_singleton_eq.
    - apply violation_expiry_by_cleanup; [apply lookup_singleton_eq|].
      vm_compute. discriminate.
Defined.

End Escalation.

(** ** C2: the duplicate check *)

Section Duplicates.
Import SpamDetection.

Lemma analyzeMessage_shape cfg st message now :
    let recent := recent_messages st message now in
    let a := snd (analyzeMessage cfg st message now) in
    a_reasons a
    = reasons_if (checkDuplicateMessages cfg recent (msg_content message))
      ++ reasons_if (checkMessageFrequency cfg recent now)
      ++ reasons_if (checkContentPatterns (msg_content message))
      ++ reasons_if (checkMessageSimilarity recent (msg_content message))
    ∧ a_isSpam a
      = isSpam (checkDuplicateMessages cfg recent (msg_content message))
        || isSpam (checkMessageFrequency cfg recent now)
        || isSpam (checkContentPatterns (msg_content message))
        || isSpam (checkMessageSimilarity recent (msg_content message))
    ∧ userMessages (fst (analyzeMessage cfg st message now)) !! author_id message
      = Some recent.
Proof.
    intros recent a. subst a. unfold analyzeMessage. fold recent. simpl.
    rewrite lookup_insert_eq.
    unfold absorb, as_number, reasons_if. simpl.
    destruct (isSpam (checkDuplicateMessages cfg recent (msg_content message)));
      destruct (isSpam (checkMessageFrequency cfg recent now));
      destruct (isSpam (checkContentPatterns (msg_content message)));
      destruct (isSpam (checkMessageSimilarity recent (msg_content message)));
      simpl; rewrite ?app_nil_r, <- ?app_assoc; done.
Qed.

Lemma checkMessageFrequency_no_duplicate cfg messages now :
    existsb is_duplicate_reason (reasons_if (checkMessageFrequency cfg messages now))
    = false.
Proof.
    unfold reasons_if, checkMessageFrequency.
    repeat case_decide; simpl; done.
Qed.

Lemma checkContentPatterns_no_duplicate content :
    existsb is_duplicate_reason (reasons_if (checkContentPatterns content)) = false.
Proof.
    unfold reasons_if, checkContentPatterns, flag.
    repeat case_decide; simpl; done.
Qed.

Lemma checkMessageSimilarity_no_duplicate messages content :
    existsb is_duplicate_reason (reasons_if (checkMessageSimilarity messages content))
    = false.
Proof.
    unfold reasons_if, checkMessageSimilarity.
    case_decide; [done|].
    destruct (foldl _ _ _) as [maxSimilarity similarCount].
    destruct (_ || _); done.
Qed.

Lemma checkDuplicateMessages_spec cfg messages content :
    let n := content_matches messages content in
    checkDuplicateMessages cfg messages content
    = if decide (maxDuplicateMessages cfg < n) then
        {| isSpam := true;
           confidence := Z.min (n * 20) 80;
           reasons := [DuplicateMessage n];
           severity := Z.min (n * 15) 60 |}
      else {| isSpam := false; confidence := 0; reasons := []; severity := 0 |}.
Proof. reflexivity. Qed.

Lemma duplicate_triggered_iff cfg st message now :
    duplicate_triggered (snd (analyzeMessage cfg st message now))
    = bool_decide (maxDuplicateMessages cfg
                   < content_matches (recent_messages st message now) (msg_content message)).
Proof.
    unfold duplicate_triggered.
    destruct (analyzeMessage_shape cfg st message now) as (-> & _ & _).
    rewrite !existsb_app, checkMessageFrequency_no_duplicate,
      checkContentPatterns_no_duplicate, checkMessageSimilarity_no_duplicate.
    rewrite !orb_false_r, checkDuplicateMessages_spec. unfold reasons_if.
    case_decide; simpl.
    - by rewrite bool_decide_eq_true_2.
    - by rewrite bool_decide_eq_false_2.
Qed.


Lemma filter_none {A} (P : A → Prop) `{∀ x, Decision (P x)} (l : list A) :
    Forall (λ x, ¬ P x) l → base.filter P l = [].
Proof.
    induction 1 as [|x l Hx _ IH]; [done|].
    by rewrite filter_cons_False.
Qed.

Lemma filter_window_matches (c : jsstring) (bound lo : Z) (hist : list Msg) :
    bound < lo →
    Forall (λ msg, content msg = c → lo ≤ timestamp msg) hist →
    base.filter (λ msg, content msg = c) (base.filter (λ msg, bound < timestamp msg) hist)
    = base.filter (λ msg, content msg = c) hist.
Proof.
    intros Hb. induction 1 as [|msg hist Hmsg _ IH]; [done|].
    rewrite (filter_cons _ msg hist).
    destruct (decide (bound < timestamp msg)) as [Hin|Hout].
    - rewrite !filter_cons. case_decide; by rewrite IH.
    - rewrite filter_cons. rewrite decide_False; [done|].
      intros Hc. specialize (Hmsg Hc). lia.
Qed.

Lemma recent_messages_matches st message now lo hi :
    Forall (λ msg, content msg = msg_content message → lo ≤ timestamp msg)
           (history st message) →
    lo ≤ now ≤ hi → hi - lo < 5 * 60 * 1000 →
    content_matches (recent_messages st message now) (msg_content message)
    = content_matches (history st message) (msg_content message) + 1
    ∧ Forall (λ msg, content msg = msg_content message → lo ≤ timestamp msg)
             (recent_messages st message now).
Proof.
    intros Hhist Hnow Hwin. unfold recent_messages. fold (history st message).
    split.
    - unfold content_matches. rewrite filter_app, length_app.
      rewrite (filter_window_matches _ _ lo) by (done || lia).
      rewrite filter_cons, decide_True by done. simpl. lia.
    - apply Forall_app. split.
      + apply Forall_forall. intros msg Hin.
        apply list_elem_of_filter in Hin as [_ Hin].
        rewrite Forall_forall in Hhist. by apply Hhist.
      + apply Forall_singleton. simpl. lia.
Qed.

Lemma send_all_cons cfg st message now times :
    send_all cfg st message (now :: times)
    = snd (analyzeMessage cfg st message now)
      :: send_all cfg (fst (analyzeMessage cfg st message now)) message times.
Proof.
    cbn [send_all]. by destruct (analyzeMessage cfg st message now).
Qed.

Lemma send_all_duplicates cfg message lo hi :
    hi - lo < 5 * 60 * 1000 →
    ∀ times st,
      Forall (λ msg, content msg = msg_content message → lo ≤ timestamp msg)
             (history st message) →
      Forall (λ now, lo ≤ now ≤ hi) times →
      ∀ k a,
        send_all cfg st message times !! k = Some a →
        let n := content_matches (history st message) (msg_content message)
                 + Z.of_nat k + 1 in
        duplicate_triggered a = bool_decide (maxDuplicateMessages cfg < n)
        ∧ (maxDuplicateMessages cfg < n →
           a_isSpam a = true ∧ DuplicateMessage n ∈ a_reasons a).
Proof.
    intros Hwin. induction times as [|now times IH]; intros st Hhist Htimes k a Hk.
    - done.
    - apply Forall_cons in Htimes as [Hnow Htimes].
      destruct (recent_messages_matches st message now lo hi Hhist Hnow Hwin)
        as [Hcount Hrecent].
      destruct (analyzeMessage_shape cfg st message now) as (Hreasons & Hspam & Hstore).
      rewrite send_all_cons in Hk.
      destruct k as [|k].
      + change (Some (snd (analyzeMessage cfg st message now)) = Some a) in Hk.
        assert (a = snd (analyzeMessage cfg st message now)) as -> by congruence.
        cbv zeta.
        replace (content_matches (history st message) (msg_content message)
                 + Z.of_nat 0 + 1)
          with (content_matches (recent_messages st message now) (msg_content message))
          by lia.
        split.
        * apply duplicate_triggered_iff.
        * intros Hlt. rewrite Hspam, Hreasons, checkDuplicateMessages_spec.
          rewrite decide_True by done. split; [done|]. apply list_elem_of_here.
      + change ((snd (analyzeMessage cfg st message now)
                 :: send_all cfg (fst (analyzeMessage cfg st message now)) message times)
                !! S k)
          with (send_all cfg (fst (analyzeMessage cfg st message now)) message times !! k)
          in Hk.
        assert (history (fst (analyzeMessage cfg st message now)) message
                = recent_messages st message now) as Hh.
        { unfold history. by rewrite Hstore. }
        specialize (IH (fst (analyzeMessage cfg st message now))).
        rewrite Hh in IH. specialize (IH Hrecent Htimes k a Hk).
        rewrite Hcount in IH. cbv zeta in IH |- *.
        replace (content_matches (history st message) (msg_content message)
                 + Z.of_nat (S k) + 1)
          with (content_matches (history st message) (msg_content message) + 1
                + Z.of_nat k + 1) by lia.
        exact IH.
Qed.




  (** The scenario of the specification: ["hello"] three times within ten
      seconds with [maxDuplicateMessages = 1]. *)
Example hello_three_times :
    let cfg := {| maxDuplicateMessages := 1; maxMessagesPerMinute := 10 |} in
    let st := {| userMessages := ∅; userViolations := ∅ |} in
    let message :=
      {| author_id := str "42"; msg_content := str "hello"; channel_id := None |} in
    (λ a, (a_isSpam a, a_confidence a, a_severity a, a_reasons a))
      <$> send_all cfg st message [1000; 4000; 9000]
    = [ (false, 0%Q, 0%Q, []);
        (true, 40%Q, 30%Q, [DuplicateMessage 2]);
        (true, 60%Q, 45%Q, [DuplicateMessage 3]) ].
Proof. vm_compute. reflexivity. Qed.

End Duplicates.

(** ** C3: the raid indicators of [detectRaid] *)

Section RaidIndicators.
Import SecurityModule.

  (** [averageRisk > 40] is a comparison of integers. *)
Lemma average_above (sum n threshold : Z) :
    0 < n →
    Qgtb (inject_Z sum / inject_Z n) (inject_Z threshold)
    = bool_decide (threshold * n < sum).
Proof.
    intros Hn. unfold Qgtb.
    assert (0 < inject_Z n)%Q as HnQ.
    { change 0%Q with (inject_Z 0). by rewrite <- Zlt_Qlt. }
    destruct (decide (threshold * n < sum)) as [Hlt|Hge].
    - rewrite bool_decide_eq_true_2 by done.
      apply negb_true_iff, Qle_bool_false_iff. apply Qlt_not_le.
      apply Qlt_shift_div_l; [done|].
      rewrite <- inject_Z_mult, <- Zlt_Qlt. done.
    - rewrite bool_decide_eq_false_2 by done.
      apply negb_false_iff, Qle_bool_iff.
      apply Qle_shift_div_r; [done|].
      rewrite <- inject_Z_mult, <- Zle_Qle. lia.
Qed.

Ltac reduce_fields :=
    cbn [joinCount suspiciousCount averageRisk confidence recommendations isRaid
         add_confidence].

Tactic Notation "decided" uconstr(P) :=
    reduce_fields;
    first [ rewrite (decide_True (P := P)) by lia
          | rewrite (decide_False (P := P)) by lia ].

Lemma evaluate_closed cfg joins :
    (0 < length joins)%nat →
    evaluate cfg joins
    = {| isRaid := bool_decide (60 ≤ gated_confidence cfg joins);
         confidence := gated_confidence cfg joins;
         joinCount := Z.of_nat (length joins);
         suspiciousCount := risky joins;
         averageRisk :=
           (inject_Z (risk_sum joins) / inject_Z (Z.of_nat (length joins)))%Q;
         recommendations := gated_recommendations cfg joins |}.
Proof.
    intros Hlen.
    pose proof (average_above (risk_sum joins) (Z.of_nat (length joins)) 40
                              ltac:(lia)) as Havg.
    change (inject_Z 40) with 40%Q in Havg.
    unfold gated_recommendations, gated_confidence, points, risky, young.
    destruct (decide (joinThreshold cfg ≤ Z.of_nat (length joins))) as [Hthr|Hthr].
    - destruct (decide (6 * Z.of_nat (length joins) ≤ _)) as [H6|H6];
        destruct (decide (40 * Z.of_nat (length joins) < risk_sum joins)) as [H4|H4];
        destruct (decide (7 * Z.of_nat (length joins) ≤ _)) as [H7|H7];
        cbn -[evaluate Z.of_nat Z.mul];
        unfold evaluate, count_where;
        decided (joinThreshold cfg ≤ _);
        decided (6 * _ ≤ _);
        reduce_fields; rewrite Havg;
        first [ rewrite bool_decide_eq_true_2 by lia
              | rewrite bool_decide_eq_false_2 by lia ];
        decided (7 * _ ≤ _);
        decided (60 ≤ _);
        reduce_fields; reflexivity.
    - cbn -[evaluate Z.of_nat Z.mul].
      unfold evaluate, count_where.
      decided (joinThreshold cfg ≤ _). decided (60 ≤ _). reflexivity.
Qed.

Lemma evaluate_spec cfg joins :
    (0 < length joins)%nat →
    confidence (evaluate cfg joins) = gated_confidence cfg joins
    ∧ isRaid (evaluate cfg joins) = bool_decide (60 ≤ gated_confidence cfg joins)
    ∧ recommendations (evaluate cfg joins) = gated_recommendations cfg joins
    ∧ joinCount (evaluate cfg joins) = Z.of_nat (length joins)
    ∧ suspiciousCount (evaluate cfg joins) = risky joins.
Proof. intros Hlen. by rewrite (evaluate_closed cfg joins Hlen). Qed.

Lemma detectRaid_analysis cfg st guildId user now :
    snd (detectRaid cfg st guildId user now)
    = evaluate cfg (join_window st guildId user now)
    ∧ recentJoins <$> raidDetection (fst (detectRaid cfg st guildId user now)) !! guildId
      = Some (join_window st guildId user now).
Proof.
    unfold detectRaid, join_window.
    destruct (analyzeUser st user now) as [st' userAnalysis] eqn:Huser.
    cbn [fst snd raidDetection]. by rewrite lookup_insert_eq.
Qed.

Lemma join_window_nonempty st guildId user now :
    (0 < length (join_window st guildId user now))%nat.
Proof. unfold join_window, window. rewrite length_app. simpl. lia. Qed.

  (** A single risky join of a young account in a guild with threshold 5:
      the code reports confidence 0, the independent accumulation 105. *)
Lemma raid_indicators_independent_fails : ¬ raid_indicators_independent.
Proof.
    intros Hclaim.
    specialize (Hclaim {| joinThreshold := 5 |}
                       {| raidDetection := ∅; accountAgeTracker := ∅ |}
                       (str "900")
                       {| id := 0; username := str "bob";
                          createdTimestamp := 1700000000000 - 1000;
                          avatar := None; discriminator := str "0" |}
                       1700000000000).
    destruct Hclaim as [Hconf _]. vm_compute in Hconf. discriminate Hconf.
Qed.

  (** C3, as the code has it.  Over the join window (the guild's joins of
      the last ten minutes and the current one), [detectRaid] adds 30 when
      the join count reaches [joinThreshold] and, only in that case, adds
      40 when at least 60% of the joins have a risk score above 30
      (recommending verification), 30 when the mean risk score exceeds 40
      (recommending restricted permissions for new members) and 35 when at
      least 70% of the joins are accounts younger than 24 hours
      (recommending an account age requirement); below the threshold the
      confidence is 0.  A raid is declared exactly when the confidence is
      at least 60. *)
Theorem detectRaid_confidence cfg st guildId user now :
    let joins := join_window st guildId user now in
    let n := Z.of_nat (length joins) in
    let a := snd (detectRaid cfg st guildId user now) in
    recentJoins <$> raidDetection (fst (detectRaid cfg st guildId user now)) !! guildId
    = Some joins ∧
    joinCount a = n ∧
    confidence a
    = (if decide (joinThreshold cfg ≤ n) then
         30
         + points (6 * n ≤ 10 * risky joins) 40
         + points (40 * n < risk_sum joins) 30
         + points (7 * n ≤ 10 * young joins) 35
       else 0) ∧
    isRaid a = bool_decide (60 ≤ confidence a) ∧
    recommendations a
    = (if decide (joinThreshold cfg ≤ n) then
         (if decide (6 * n ≤ 10 * risky joins) then [EnableVerification] else [])
         ++ (if decide (40 * n < risk_sum joins) then [RestrictNewMembers] else [])
         ++ (if decide (7 * n ≤ 10 * young joins) then [AccountAgeRequirements] else [])
       else [])
      ++ (if isRaid a then [ConsiderLockdown] else []).
Proof.
    intros joins n a.
    destruct (detectRaid_analysis cfg st guildId user now) as [Ha Hstore].
    destruct (evaluate_spec cfg joins (join_window_nonempty st guildId user now))
      as (Hconf & Hraid & Hrec & Hcount & _).
    subst a. rewrite Ha. fold joins.
    rewrite Hconf, Hraid, Hrec, Hcount.
    split_and!; [exact Hstore|reflexivity|reflexivity|reflexivity|].
    unfold gated_recommendations. fold n. f_equal.
    case_decide; [by rewrite bool_decide_eq_true_2|by rewrite bool_decide_eq_false_2].
Qed.

  (** Five joins of fresh accounts within a minute in a guild with
      threshold 5: a raid on the fifth join, none on the fourth. *)
Example five_fresh_accounts :
    let cfg := {| joinThreshold := 5 |} in
    let member (k : Z) :=
      {| id := k; username := str "bob"; createdTimestamp := 1700000000000 - 1000;
         avatar := None; discriminator := str "0" |} in
    let join st k := fst (detectRaid cfg st (str "900") (member k) (1700000000000 + k)) in
    let st4 := foldl join {| raidDetection := ∅; accountAgeTracker := ∅ |} [1; 2; 3] in
    let a4 := snd (detectRaid cfg st4 (str "900") (member 4) 1700000000004) in
    let a5 := snd (detectRaid cfg (join st4 4) (str "900") (member 5) 1700000000005) in
    (isRaid a4, confidence a4) = (false, 0) ∧
    (isRaid a5, confidence a5, recommendations a5)
    = (true, 135,
       [EnableVerification; RestrictNewMembers; AccountAgeRequirements; ConsiderLockdown]).
Proof. vm_compute. done. Qed.

End RaidIndicators.

(** ** C4: the join threshold of [monitorJoin] *)

Section JoinThreshold.
Import RaidProtection.

Lemma filter_all {A} (P : A → Prop) `{∀ x, Decision (P x)} (l : list A) :
    Forall P l → base.filter P l = l.
Proof.
    induction 1 as [|x l Hx _ IH]; [done|].
    by rewrite filter_cons_True, IH.
Qed.

Lemma monitor_all_cons opts st guildId guildConfig e events :
    monitor_all opts st guildId guildConfig (e :: events)
    = snd (monitorJoin opts st guildId (member e) guildConfig
                       (at_entry e) (at_analysis e) (at_check e))
      :: monitor_all opts
           (fst (monitorJoin opts st guildId (member e) guildConfig
                             (at_entry e) (at_analysis e) (at_check e)))
           guildId guildConfig events.
Proof. cbn [monitor_all]. by destruct (monitorJoin _ _ _ _ _ _ _ _). Qed.

  (** One join inside the window: every tracked join is kept, the current
      one is added, and the raid check counts them all. *)
Lemma monitorJoin_in_window opts st guildId user guildConfig now now_analyze now_check
        lo hi :
    enabled guildConfig = true →
    hi - lo < or_default (timeWindow guildConfig) (o_timeWindow opts) →
    Forall (λ join, lo ≤ joinedAt join ≤ hi) (tracked_joins st guildId) →
    lo ≤ now ≤ hi → lo ≤ now_check ≤ hi →
    let r := monitorJoin opts st guildId user guildConfig now now_analyze now_check in
    raidDetected (snd r)
    = Some (bool_decide (or_default (joinThreshold guildConfig) (o_joinThreshold opts)
                         ≤ Z.of_nat (length (tracked_joins st guildId)) + 1))
    ∧ length (tracked_joins (fst r) guildId) = S (length (tracked_joins st guildId))
    ∧ Forall (λ join, lo ≤ joinedAt join ≤ hi) (tracked_joins (fst r) guildId).
Proof.
    intros Hen Hwin Htracked Hnow Hcheck r. subst r.
    unfold monitorJoin. rewrite Hen. cbn [negb].
    set (old := default {| joins := []; lastRaidCheck := now; raidActive := false;
                           raidStarted := None |} (st !! guildId)).
    assert (joins old = tracked_joins st guildId) as Hold.
    { unfold old, tracked_joins. by destruct (st !! guildId). }
    set (new := {| userId := id user; j_username := username user;
                   j_discriminator := discriminator user;
                   accountCreated := createdAt user; joinedAt := now;
                   j_avatar := avatar user; suspicious := false |}).
    assert (Forall (λ join, lo ≤ joinedAt join ≤ hi) (joins old ++ [new])) as Hall.
    { apply Forall_app. split; [by rewrite Hold|]. apply Forall_singleton. done. }
    rewrite (filter_all (λ join, now - joinedAt join
                                 < or_default (timeWindow guildConfig) (o_timeWindow opts))
                        (joins old ++ [new])).
    2: { eapply Forall_impl; [exact Hall|]. intros join Hj. simpl in *. lia. }
    cbn [fst snd raidDetected].
    unfold checkRaidConditions. cbn [joins].
    rewrite (filter_all (λ join, now_check - joinedAt join
                                 < or_default (timeWindow guildConfig) (o_timeWindow opts))
                        (joins old ++ [new])).
    2: { eapply Forall_impl; [exact Hall|]. intros join Hj. simpl in *. lia. }
    repeat match goal with
           | |- context [let '(_, _) := ?x in _] => destruct x
           end.
    cbn [isRaid].
    split; [|split].
    - rewrite length_app, Hold. simpl. do 2 f_equal. apply bool_decide_ext. lia.
    - unfold tracked_joins at 1. rewrite lookup_insert_eq. simpl.
      destruct (_ && _); simpl; rewrite length_app, Hold; simpl; lia.
    - unfold tracked_joins at 1. rewrite lookup_insert_eq. simpl.
      destruct (_ && _); simpl; exact Hall.
Qed.


Lemma monitor_all_in_window opts guildId guildConfig lo hi :
    enabled guildConfig = true →
    hi - lo < or_default (timeWindow guildConfig) (o_timeWindow opts) →
    ∀ events st,
      Forall (λ join, lo ≤ joinedAt join ≤ hi) (tracked_joins st guildId) →
      Forall (λ e, lo ≤ at_entry e ≤ hi ∧ lo ≤ at_check e ≤ hi) events →
      ∀ k r,
        monitor_all opts st guildId guildConfig events !! k = Some r →
        raidDetected r
        = Some (bool_decide
                  (or_default (joinThreshold guildConfig) (o_joinThreshold opts)
                   ≤ Z.of_nat (length (tracked_joins st guildId)) + Z.of_nat k + 1)).
Proof.
    intros Hen Hwin. induction events as [|e events IH]; intros st Htracked Hev k r Hk.
    - done.
    - apply Forall_cons in Hev as [[Hnow Hcheck] Hev].
      destruct (monitorJoin_in_window opts st guildId (member e) guildConfig
                  (at_entry e) (at_analysis e) (at_check e) lo hi
                  Hen Hwin Htracked Hnow Hcheck) as (Hraid & Hlen & Hnext).
      rewrite monitor_all_cons in Hk. destruct k as [|k].
      + assert (r = snd (monitorJoin opts st guildId (member e) guildConfig
                                     (at_entry e) (at_analysis e) (at_check e))) as ->.
        { simpl in Hk. congruence. }
        rewrite Hraid. do 2 f_equal. apply bool_decide_ext. lia.
      + rewrite (IH _ Hnext Hev k r Hk), Hlen.
        do 2 f_equal. apply bool_decide_ext. lia.
Qed.



End JoinThreshold.

(** ** The content filter *)

Section ContentFilterProperties.
Import ContentFilter.

  (** *** C10: the action of a clean message *)

Lemma determineAction_floor severity userId :
    determineAction severity userId = ActDelete ↔ severity < 1.
Proof.
    unfold determineAction. repeat case_decide; split; intros; try done; lia.
Qed.

  (** C10. With filtering enabled, an author who is not whitelisted and no
      usable cached result, a message on which neither the text analysis nor
      the attachment analysis detects anything is returned with severity 0,
      [filtered = false] and the action ['delete']: [determineAction] falls
      through to ['delete'] for every severity below 1. *)
Theorem clean_message_action cfg patterns cache message now :
    enabled cfg = true →
    isWhitelisted cfg (author message) = false →
    (∀ result timestamp,
       cache !! cacheKey message = Some (result, timestamp) →
       cacheTimeout ≤ now - timestamp) →
    filtered (analyzeText cfg patterns (content message)) = false →
    (∀ files, attachments message = Some files →
              filtered (analyzeAttachments cfg files) = false) →
    ∃ analysis,
      snd (analyzeContent cfg patterns cache message now) = Analysed analysis
      ∧ c_severity analysis = 0
      ∧ c_filtered analysis = false
      ∧ c_detections analysis = []
      ∧ c_action analysis = ActDelete.
Proof.
    intros Hen Hwl Hcache Htext Hfiles.
    assert (∃ analysis,
              snd (analyze_uncached cfg patterns cache message now) = Analysed analysis
              ∧ c_severity analysis = 0 ∧ c_filtered analysis = false
              ∧ c_detections analysis = [] ∧ c_action analysis = ActDelete) as Hfresh.
    { unfold analyze_uncached. rewrite Hwl. unfold merge. rewrite Htext.
      destruct (attachments message) as [[|file files]|] eqn:Hatt.
      - eexists. split; [reflexivity|]. done.
      - rewrite (Hfiles _ eq_refl). eexists. split; [reflexivity|]. done.
      - eexists. split; [reflexivity|]. done. }
    unfold analyzeContent. rewrite Hen. cbn [negb].
    destruct (cache !! cacheKey message) as [[result timestamp]|] eqn:Hlook; [|done].
    specialize (Hcache _ _ eq_refl).
    rewrite decide_False by lia. done.
Qed.

Lemma clean_message_action_witness :
    let message := {| content := str "good morning";
                      author := {| id := str "42"; tag := str "ann#0001" |};
                      attachments := Some [ {| name := str "cat.png"; size := 1024 |} ] |} in
    ∃ analysis,
      snd (analyzeContent (filterConfig false []) (compiled (filterConfig false []))
                          ∅ message 1700000000000)
      = Analysed analysis
      ∧ c_severity analysis = 0
      ∧ c_filtered analysis = false
      ∧ c_detections analysis = []
      ∧ c_action analysis = ActDelete.
Proof.
    intros message.
    apply (clean_message_action (filterConfig false [])
                                (compiled (filterConfig false [])) ∅ message).
    - reflexivity.
    - reflexivity.
    - intros result timestamp Hlook. by rewrite lookup_empty in Hlook.
    - vm_compute. reflexivity.
    - intros files Hfiles. injection Hfiles as <-. vm_compute. reflexivity.
Defined.


  (** *** C7: built-in and custom words *)

Lemma compilePatterns_default strict :
    compilePatterns (filterConfig strict [])
    = Some (compiled (filterConfig false [])).
Proof. destruct strict; vm_compute; reflexivity. Qed.

  (** The source compiled for ["damn"]: the replacements for [o] and [i] are
      applied inside the class the vowel replacement has just inserted. *)
Example evasion_source_damn :
    evasion_source (str "damn") = str "d[ae[i1!|][o0@]u@3!0]mn".
Proof. reflexivity. Qed.

  (** C7, on the code.  The built-in word ["damn"], alone in a message, is
      not detected by a filter constructed without custom words, and neither
      is any other built-in word, written as it is in its list or with one
      letter replaced (["d@mn"], ["sh1t"]); the text the compiled pattern of
      ["damn"] does match is ["da0u@3!0]mn"].  A custom word is matched as
      it is, ignoring case and at word boundaries, and its variant with one
      letter replaced is not detected. *)
Theorem builtin_words_not_detected :
    let plain := filterConfig false [] in
    filtered (analyzeText plain (compiled plain) (str "damn")) = false ∧
    Forall (λ word, filtered (analyzeText plain (compiled plain) word) = false)
           builtin_words ∧
    filtered (analyzeText plain (compiled plain) (str "d@mn")) = false ∧
    filtered (analyzeText plain (compiled plain) (str "sh1t")) = false ∧
    detections (analyzeText plain (compiled plain) (str "da0u@3!0]mn"))
    = [Profanity English (str "damn") 1 1] ∧
    let custom := filterConfig false [str "damn"] in
    detections (analyzeText custom (compiled custom) (str "well DAMN it"))
    = [CustomWord (str "damn") 1 2] ∧
    filtered (analyzeText custom (compiled custom) (str "well d@mn it")) = false ∧
    filtered (analyzeText custom (compiled custom) (str "goddamn")) = false.
Proof.
    cbv zeta.
    refine (conj _ (conj _ (conj _ (conj _ (conj _ (conj _ (conj _ _)))))));
      [vm_compute; reflexivity | | vm_compute; reflexivity ..].
    apply (bool_decide_unpack _). vm_compute. exact I.
Qed.

End ContentFilterProperties.
(** ** Global matching *)

Section GlobalMatch.

Lemma match_g_from_one_of (P : N → bool) fuel : ∀ prev s,
    (length s ≤ fuel)%nat →
    match_g_from (SpamDetection.one_of P) fuel prev s
    = (λ c, [c]) <$> base.filter (λ c, P c = true) s.
Proof.
    induction fuel as [|fuel IH]; intros prev s Hlen.
    - destruct s; [done|simpl in Hlen; lia].
    - destruct s as [|c s]; [done|].
      simpl in Hlen. cbn [match_g_from SpamDetection.one_of].
      rewrite filter_cons. destruct (P c) eqn:HP.
      + rewrite (decide_True (P := true = true)) by done.
        cbn [Nat.max take drop length].
        destruct (decide (S (length s) < 1)%nat); [lia|].
        rewrite fmap_cons. f_equal. apply IH. lia.
      + rewrite (decide_False (P := false = true)) by done.
        apply IH. lia.
Qed.

Lemma match_g_one_of (P : N → bool) s :
    match_g (SpamDetection.one_of P) s = (λ c, [c]) <$> base.filter (λ c, P c = true) s.
Proof. apply match_g_from_one_of. lia. Qed.

Lemma match_g_one_of_length (P : N → bool) s :
    length (match_g (SpamDetection.one_of P) s) = count_units P s.
Proof. by rewrite match_g_one_of, length_fmap. Qed.

  (** For an expression that does not look behind, there is a match
      exactly when some position matches. *)
Lemma match_g_from_some (f : jsstring → option nat) fuel : ∀ prev s,
    (length s < fuel)%nat →
    match_g_from (λ _, f) fuel prev s ≠ []
    ↔ ∃ i, (i ≤ length s)%nat ∧ is_Some (f (drop i s)).
Proof.
    induction fuel as [|fuel IH]; intros prev s Hlen; [lia|].
    cbn [match_g_from]. destruct (f s) as [n|] eqn:Hf.
    - split; [|done]. intros _. exists 0%nat. rewrite drop_0, Hf. split; [lia|by eexists].
    - destruct s as [|c s].
      + split; [done|]. intros (i & _ & Hi). rewrite drop_nil, Hf in Hi.
        by destruct Hi.
      + simpl in Hlen. rewrite IH by lia. split.
        * intros (i & Hi & Hm). exists (S i). simpl. split; [lia|done].
        * intros ([|i] & Hi & Hm).
          -- rewrite drop_0, Hf in Hm. by destruct Hm.
          -- exists i. simpl in Hi, Hm. split; [lia|done].
Qed.

Lemma span_len_replicate (c : N) n : ∀ s,
    (n ≤ span_len (N.eqb c) s)%nat ↔ ∃ rest, s = replicate n c ++ rest.
Proof.
    induction n as [|n IH]; intros s.
    - split; [|lia]. intros _. by exists s.
    - destruct s as [|x s]; simpl.
      + split; [lia|]. intros [rest Hrest]. done.
      + destruct (N.eqb_spec c x) as [<-|Hne].
        * rewrite <- Nat.succ_le_mono, IH. split.
          -- intros [rest ->]. by exists rest.
          -- intros [rest Hrest]. injection Hrest as ->. by exists rest.
        * split; [lia|]. intros [rest Hrest]. congruence.
Qed.

Lemma repeatedChars_matches s :
    match_g SpamDetection.repeatedChars s ≠ [] ↔ has_run 5 s.
Proof.
    unfold match_g.
    change SpamDetection.repeatedChars
      with (λ _ : option N, SpamDetection.repeatedChars None).
    rewrite match_g_from_some by lia. split.
    - intros (i & Hi & Hm).
      unfold SpamDetection.repeatedChars in Hm.
      destruct (drop i s) as [|c rest] eqn:Hdrop; [by destruct Hm|].
      destruct (is_line_terminator c) eqn:Hlt; [by destruct Hm|].
      destruct (4 <=? span_len (N.eqb c) rest)%nat eqn:Hspan; [|by destruct Hm].
      apply Nat.leb_le, span_len_replicate in Hspan as [post ->].
      exists (take i s), c, post. split; [|done].
      rewrite <- (take_drop i s) at 1. by rewrite Hdrop.
    - intros (pre & c & post & -> & Hlt).
      exists (length pre). rewrite drop_app_length, length_app. split; [lia|].
      change (replicate 5 c ++ post) with (c :: (replicate 4 c ++ post)).
      unfold SpamDetection.repeatedChars. rewrite Hlt.
      assert (4 ≤ span_len (N.eqb c) (replicate 4 c ++ post))%nat as Hspan.
      { apply span_len_replicate. by exists post. }
      apply Nat.leb_le in Hspan. rewrite Hspan. by eexists.
Qed.

  (** Every match is the text an admitted match length cuts off some
      position. *)
Lemma match_g_from_elem m fuel : ∀ prev s x,
    x ∈ match_g_from m fuel prev s →
    ∃ prev' s' n, m prev' s' = Some n ∧ x = take n s'.
Proof.
    induction fuel as [|fuel IH]; intros prev s x Hx; cbn [match_g_from] in Hx.
    - by apply not_elem_of_nil in Hx.
    - destruct (m prev s) as [n|] eqn:Hm.
      + apply elem_of_cons in Hx as [->|Hx]; [by exists prev, s, n|].
        case_decide; [by apply not_elem_of_nil in Hx|]. by eapply IH.
      + destruct s as [|c s]; [by apply not_elem_of_nil in Hx|]. by eapply IH.
Qed.

Lemma span_len_le P s : (span_len P s ≤ length s)%nat.
Proof. induction s as [|c s IH]; simpl; [lia|]. destruct (P c); lia. Qed.

Lemma span_len_take P s : Forall (λ c, P c = true) (take (span_len P s) s).
Proof.
    induction s as [|c s IH]; simpl; [constructor|].
    destruct (P c) eqn:HP; simpl; by constructor.
Qed.

  (** The matches of [/[A-Z]{10,}/g] are runs of at least ten capital
      letters. *)
Lemma capsLock_matches s :
    Forall (λ run, (10 ≤ length run)%nat ∧ Forall (λ c, is_capital c = true) run)
           (match_g SpamDetection.capsLock s).
Proof.
    apply Forall_forall. intros run Hrun.
    apply match_g_from_elem in Hrun as (prev & s' & n & Hm & ->).
    unfold SpamDetection.capsLock in Hm.
    destruct (10 <=? span_len (in_range 65 90) s')%nat eqn:Hlen; [|done].
    injection Hm as <-. apply Nat.leb_le in Hlen. split.
    - rewrite length_take. pose proof (span_len_le (in_range 65 90) s'). lia.
    - apply span_len_take.
Qed.

  (** Matches do not overlap: together they are no longer than the text,
      for an expression whose matches fit the text. *)
Lemma match_g_from_total m :
    (∀ prev s n, m prev s = Some n → (n ≤ length s)%nat) →
    ∀ fuel prev s,
      (length (concat (match_g_from m fuel prev s)) ≤ length s)%nat.
Proof.
    intros Hfit. induction fuel as [|fuel IH]; intros prev s; cbn [match_g_from].
    - simpl. lia.
    - destruct (m prev s) as [n|] eqn:Hm.
      + apply Hfit in Hm. cbn [concat]. rewrite length_app, length_take.
        case_decide.
        * simpl. lia.
        * specialize (IH (last (take (n `max` 1) s)) (drop (n `max` 1) s)).
          rewrite length_drop in IH. lia.
      + destruct s as [|c s]; [simpl; lia|]. specialize (IH (Some c) s). simpl. lia.
Qed.

Lemma caps_total_bounds s : 0 ≤ caps_total s ≤ Z.of_nat (length s).
Proof.
    unfold caps_total, SpamDetection.total_length, match_g.
    pose proof (match_g_from_total SpamDetection.capsLock) as Htot.
    split; [lia|]. apply Nat2Z.inj_le, Htot.
    intros prev s' n Hm. unfold SpamDetection.capsLock in Hm.
    destruct (10 <=? _)%nat; [|done]. injection Hm as <-. apply span_len_le.
Qed.

End GlobalMatch.

(** ** C8: the content pattern check *)

Section ContentPatterns.
Import SpamDetection.

Lemma checkContentPatterns_closed content :
    checkContentPatterns content
    = let add signal c why s (r : Check Z) := if signal : bool then flag r c why s else r in
      add (invisible_signal content) 35 InvisibleChars 30
        (add (zalgo_signal content) 40 ZalgoText 35
           (add (emoji_signal content) 30
                (ExcessiveEmojis (Z.of_nat (count_units is_emoji (codePoints content)))) 25
              (add (caps_signal content) 20 CapsLock 15
                 (add (repeated_signal content) 25 RepeatedChars 20 (no_spam 0))))).
Proof.
    unfold checkContentPatterns. cbv zeta.
    rewrite !match_g_one_of_length.
    unfold repeated_signal, caps_signal, emoji_signal, zalgo_signal, invisible_signal,
      caps_total, match_emojis, count_units.
    rewrite !decide_bool_decide.
    pose proof (caps_total_bounds content) as Hcaps.
    unfold caps_total in Hcaps.
    rewrite (bool_decide_ext (0 < length (match_g repeatedChars content))%nat
                             (match_g repeatedChars content ≠ [])).
    2: { destruct (match_g repeatedChars content); simpl; split; (done || lia). }
    destruct (bool_decide (match_g repeatedChars content ≠ [])); cbn [no_spam];
      (destruct (decide (match_g capsLock content ≠ [] ∧ (20 < length content)%nat))
        as [[Hne Hlen]|Hno];
       [rewrite (bool_decide_eq_true_2 (_ ∧ (20 < _)%nat)) by done;
        rewrite (bool_decide_ext
                   ((20 < length content)%nat
                    ∧ 7 * Z.of_nat (length content)
                      < 10 * total_length (match_g capsLock content))
                   (7 * Z.of_nat (length content)
                    < 10 * total_length (match_g capsLock content))) by tauto;
        reflexivity
       |rewrite (bool_decide_eq_false_2 (_ ∧ (20 < _)%nat)) by done;
        rewrite (bool_decide_eq_false_2 ((20 < _)%nat ∧ _)); [reflexivity|];
        intros [Hlen Hratio]; apply Hno; split; [|done];
        intros Hnil; rewrite Hnil in Hratio; unfold total_length in Hratio;
        simpl in Hratio; lia]).
Qed.

  (** Twenty-one combining marks, no two neighbours equal: the code adds 40
      to the confidence, the specification lists 35. *)
Lemma pattern_points_as_specified_fails : ¬ pattern_points_as_specified.
Proof.
    intros Hclaim.
    destruct (Hclaim (concat (replicate 10 [0x300; 0x301]%N) ++ [0x300%N])) as [Hconf _].
    vm_compute in Hconf. discriminate Hconf.
Qed.

  (** C8, as the code has it.  The signals of [checkContentPatterns] add up
      independently: +25 confidence/+20 severity for a run of at least five
      equal code units (other than line terminators); +20/+15 when the text
      is longer than 20 code units and the runs of at least ten capital
      letters A-Z together cover more than 70% of it; +30/+25 for more than
      10 emoji code points; +40/+35 for more than 20 combining marks; and
      +35/+30 for more than 5 invisible characters. *)
Theorem checkContentPatterns_points content :
    (repeated_signal content = true ↔ has_run 5 content) ∧
    Forall (λ run, (10 ≤ length run)%nat ∧ Forall (λ c, is_capital c = true) run)
           (match_g capsLock content) ∧
    0 ≤ caps_total content ≤ Z.of_nat (length content) ∧
    isSpam (checkContentPatterns content)
    = repeated_signal content || caps_signal content || emoji_signal content
      || zalgo_signal content || invisible_signal content ∧
    confidence (checkContentPatterns content)
    = weighted (repeated_signal content) 25 + weighted (caps_signal content) 20
      + weighted (emoji_signal content) 30 + weighted (zalgo_signal content) 40
      + weighted (invisible_signal content) 35 ∧
    severity (checkContentPatterns content)
    = weighted (repeated_signal content) 20 + weighted (caps_signal content) 15
      + weighted (emoji_signal content) 25 + weighted (zalgo_signal content) 35
      + weighted (invisible_signal content) 30.
Proof.
    split; [|split; [|split]].
    - unfold repeated_signal. rewrite bool_decide_eq_true. apply repeatedChars_matches.
    - apply capsLock_matches.
    - apply caps_total_bounds.
    - rewrite checkContentPatterns_closed. cbv zeta.
      destruct (repeated_signal content), (caps_signal content),
        (emoji_signal content), (zalgo_signal content), (invisible_signal content);
        cbn [weighted flag isSpam confidence severity no_spam orb];
        (split; [reflexivity|split; lia]).
Qed.

  (** The text of the counterexample, and one carrying several signals. *)
Example checkContentPatterns_samples :
    (let r := checkContentPatterns (concat (replicate 10 [0x300; 0x301]%N) ++ [0x300%N]) in
     (confidence r, severity r, reasons r) = (40, 35, [ZalgoText])) ∧
    (let r := checkContentPatterns (str "AAAAAAAAAAAAAAAAAAAAAAAA!!") in
     (confidence r, severity r, reasons r) = (45, 35, [RepeatedChars; CapsLock])) ∧
    (let r := checkContentPatterns (replicate 6 10%N) in
     (confidence r, severity r, reasons r) = (0, 0, [])).
Proof. vm_compute. done. Qed.

End ContentPatterns.

(** ** C9: strict mode *)

Section StrictMode.
Import ContentFilter.

Lemma scan_words_strict language text entries : ∀ analysis,
    scan_words true language text entries analysis = analysis
    ∨ (filtered (scan_words true language text entries analysis) = true
       ∧ length (detections (scan_words true language text entries analysis))
         = S (length (detections analysis))).
Proof.
    induction entries as [|[word pattern] entries IH]; intros analysis; [by left|].
    cbn [scan_words]. case_decide; [|apply IH].
    right. cbn [filtered detections]. rewrite length_app. simpl. split; [done|lia].
Qed.

Lemma scan_languages_strict text compiled_lists : ∀ analysis,
    filtered analysis = false →
    (length (detections (scan_languages true text compiled_lists analysis))
     ≤ S (length (detections analysis)))%nat.
Proof.
    induction compiled_lists as [|[language patterns] rest IH]; intros analysis Hclean.
    - simpl. lia.
    - cbn [scan_languages].
      destruct (scan_words_strict language text (zip (words_of language) patterns) analysis)
        as [->|[Hfiltered Hlen]].
      + rewrite Hclean. cbn [andb]. by apply IH.
      + rewrite Hfiltered. cbn [andb]. lia.
Qed.

  (** In strict mode the scan of the built-in lists stops at the first
      detection: without custom patterns the text analysis produces at most
      one detection. *)
Lemma analyzeText_strict_builtin cfg patterns content :
    strictMode cfg = true →
    customPatterns patterns = None →
    (length (detections (analyzeText cfg patterns content)) ≤ 1)%nat.
Proof.
    intros Hstrict Hnone. unfold analyzeText. case_decide; [simpl; lia|].
    rewrite Hstrict, Hnone.
    by apply (scan_languages_strict _ _ clean).
Qed.

  (** C9, on the code.  In strict mode, with the custom words ["foo"] and
      ["bar"], the text ["foo bar"] yields two detection entries: the loop
      over the custom patterns does not stop at the first detection. *)
Theorem strict_mode_custom_words :
    let cfg := filterConfig true [str "foo"; str "bar"] in
    strictMode cfg = true ∧
    detections (analyzeText cfg (compiled cfg) (str "foo bar"))
    = [CustomWord (str "foo") 1 2; CustomWord (str "bar") 1 2].
Proof. cbv zeta. split; [reflexivity|]. vm_compute. reflexivity. Qed.

End StrictMode.
